(** * Search clients: pagination, fallback and normalisation

    A shallow embedding of the three search clients
    ([src/twitter/twitter_api.py], [src/indeed/indeed_api.py],
    [src/yelp/yelp_api.py]): the decoded JSON values they traverse, the
    exceptions they raise, the network calls they issue and the records
    their generators yield. *)

From Stdlib Require Import ZArith List String Ascii Bool Lia.
From Stdlib Require Import DecimalString.
Import ListNotations.
Set Warnings "-register-all".
Local Open Scope string_scope.
Local Open Scope Z_scope.

(** ** Python values and the operations the clients apply to them *)

Module Py.

(** A decoded JSON document, which is also the shape of every dict the
    clients build.  A dict keeps its insertion order.  The numbers are the
    integers: the clients pass the numbers of a response on and compute
    with none but their own counters. *)
Inductive json : Type :=
| JNull
| JBool (b : bool)
| JNum (n : Z)
| JStr (s : string)
| JList (items : list json)
| JDict (fields : list (string * json)).

(** A raised exception: the name of its class and its message. *)
Record pyexc : Type := PyExc { exc_class : string; exc_msg : string }.

(** The outcome of evaluating an expression that may raise. *)
Inductive res (A : Type) : Type :=
| Ok (a : A)
| Raise (e : pyexc).
Arguments Ok {A} a.
Arguments Raise {A} e.

Definition rbind {A B} (r : res A) (k : A -> res B) : res B :=
  match r with
  | Ok a => k a
  | Raise e => Raise e
  end.

Declare Scope res_scope.
Delimit Scope res_scope with res.
Notation "x <~ r ;; k" := (rbind r (fun x => k))
  (at level 100, r at next level, right associativity) : res_scope.

Fixpoint rmap {A B} (f : A -> res B) (l : list A) : res (list B) :=
  match l with
  | [] => Ok []
  | x :: t =>
      rbind (f x) (fun y => rbind (rmap f t) (fun ys => Ok (y :: ys)))
  end.

(** The generic class every [raise Exception(...)] of the clients uses. *)
Definition Exception (msg : string) : pyexc := PyExc "Exception" msg.
Definition AttributeError (msg : string) : pyexc := PyExc "AttributeError" msg.
Definition TypeError (msg : string) : pyexc := PyExc "TypeError" msg.
Definition KeyError (msg : string) : pyexc := PyExc "KeyError" msg.
Definition IndexError (msg : string) : pyexc := PyExc "IndexError" msg.

Definition type_name (v : json) : string :=
  match v with
  | JNull => "NoneType"
  | JBool _ => "bool"
  | JNum _ => "int"
  | JStr _ => "str"
  | JList _ => "list"
  | JDict _ => "dict"
  end.

(** Truth value of an object, as tested by [if v:] and [if not v:]. *)
Definition truthy (v : json) : bool :=
  match v with
  | JNull => false
  | JBool b => b
  | JNum n => negb (n =? 0)
  | JStr s => negb (String.eqb s "")
  | JList l => match l with [] => false | _ => true end
  | JDict d => match d with [] => false | _ => true end
  end.

Fixpoint lookup (k : string) (d : list (string * json)) : option json :=
  match d with
  | [] => None
  | (k', v) :: t => if String.eqb k' k then Some v else lookup k t
  end.

Definition keys (d : list (string * json)) : list string := map fst d.

(** The top-level keys of a record, and two records with the same ones. *)
Definition record_keys (v : json) : list string :=
  match v with
  | JDict d => keys d
  | _ => []
  end.

Definition same_key_set (a b : json) : Prop :=
  forall k, In k (record_keys a) <-> In k (record_keys b).

(** The field [k] of a dict, and the value at the end of a path of
    fields; [None] when a field is missing or its holder is no dict. *)
Definition field (k : string) (v : json) : option json :=
  match v with
  | JDict d => lookup k d
  | _ => None
  end.

Fixpoint at_path (path : list string) (v : json) : option json :=
  match path with
  | [] => Some v
  | k :: rest => match field k v with
                 | Some x => at_path rest x
                 | None => None
                 end
  end.

Definition is_dict (v : json) : bool :=
  match v with
  | JDict _ => true
  | _ => false
  end.

Definition is_dict_list (v : json) : bool :=
  match v with
  | JList l => forallb is_dict l
  | _ => false
  end.

(** [v] is a dict, and its field [k], if it has one, satisfies [p]. *)
Definition dict_with (k : string) (p : json -> bool) (v : json) : bool :=
  is_dict v && match field k v with
               | Some x => p x
               | None => true
               end.

(** [v.get(k, default)]: only a dict has the method. *)
Definition get_or (v : json) (k : string) (default : json) : res json :=
  match v with
  | JDict d => Ok (match lookup k d with Some x => x | None => default end)
  | _ => Raise (AttributeError
                  ("'" ++ type_name v ++ "' object has no attribute 'get'"))
  end.

(** [v.get(k)]: the default is [None]. *)
Definition get (v : json) (k : string) : res json := get_or v k JNull.

(** [v == "s"] for a string literal. *)
Definition eq_str (v : json) (s : string) : bool :=
  match v with
  | JStr s' => String.eqb s' s
  | _ => false
  end.

Fixpoint is_substring (k s : string) : bool :=
  if String.prefix k s then true
  else match s with
       | EmptyString => false
       | String _ t => is_substring k t
       end.

(** ["k" in v]: key of a dict, element of a list, substring of a str. *)
Definition contains (k : string) (v : json) : res bool :=
  match v with
  | JDict d => Ok (match lookup k d with Some _ => true | None => false end)
  | JList l => Ok (existsb (fun x => eq_str x k) l)
  | JStr s => Ok (is_substring k s)
  | _ => Raise (TypeError
                  ("argument of type '" ++ type_name v ++ "' is not iterable"))
  end.

(** [v["k"]] with a string key. *)
Definition subscript (v : json) (k : string) : res json :=
  match v with
  | JDict d => match lookup k d with
               | Some x => Ok x
               | None => Raise (KeyError k)
               end
  | JList _ => Raise (TypeError "list indices must be integers or slices, not str")
  | JStr _ => Raise (TypeError "string indices must be integers, not 'str'")
  | _ => Raise (TypeError
                  ("'" ++ type_name v ++ "' object is not subscriptable"))
  end.

(** [for x in v]: the elements of a list, the keys of a dict, the
    characters of a str. *)
Definition iter (v : json) : res (list json) :=
  match v with
  | JList l => Ok l
  | JDict d => Ok (map (fun kv => JStr (fst kv)) d)
  | JStr s => Ok (map (fun c => JStr (String c EmptyString)) (list_ascii_of_string s))
  | _ => Raise (TypeError
                  ("'" ++ type_name v ++ "' object is not iterable"))
  end.

(** [len(v)]. *)
Definition len (v : json) : res Z :=
  match v with
  | JList l => Ok (Z.of_nat (List.length l))
  | JDict d => Ok (Z.of_nat (List.length d))
  | JStr s => Ok (Z.of_nat (String.length s))
  | _ => Raise (TypeError
                  ("object of type '" ++ type_name v ++ "' has no len()"))
  end.

(** [v[:5]], as the log lines of the bootstrap take it: a prefix of a str
    or of a list; anything else cannot be sliced (a dict raises TypeError
    up to Python 3.11). *)
Definition slice5 (v : json) : res json :=
  match v with
  | JStr s => Ok (JStr (substring 0 5 s))
  | JList l => Ok (JList (firstn 5 l))
  | JDict _ => Raise (TypeError "unhashable type: 'slice'")
  | _ => Raise (TypeError
                  ("'" ++ type_name v ++ "' object is not subscriptable"))
  end.

(** [v[0]] *)
Definition subscript0 (v : json) : res json :=
  match v with
  | JList (x :: _) => Ok x
  | JList [] => Raise (IndexError "list index out of range")
  | JStr (String c _) => Ok (JStr (String c EmptyString))
  | JStr EmptyString => Raise (IndexError "string index out of range")
  | JDict _ => Raise (KeyError "0")
  | _ => Raise (TypeError
                  ("'" ++ type_name v ++ "' object is not subscriptable"))
  end.

(** [n >= v] for an int [n]: [v] has to be a number. *)
Definition int_ge (n : Z) (v : json) : res bool :=
  match v with
  | JNum m => Ok (m <=? n)
  | JBool b => Ok ((if b then 1 else 0) <=? n)
  | _ => Raise (TypeError
      ("'>=' not supported between instances of 'int' and '"
         ++ type_name v ++ "'"))
  end.

(** [v != "s"] for a string literal. *)
Definition ne_str (v : json) (s : string) : bool :=
  match v with
  | JStr s' => negb (String.eqb s' s)
  | _ => true
  end.

(** [s.split('/')[-1]] *)
Fixpoint last_segment_from (acc s : string) : string :=
  match s with
  | EmptyString => acc
  | String c t =>
      if Ascii.eqb c "/"%char then last_segment_from "" t
      else last_segment_from (acc ++ String c EmptyString) t
  end.
Definition last_segment (s : string) : string := last_segment_from "" s.

(** [str(n)] for an int. *)
Definition str_int (n : Z) : string := NilZero.string_of_int (Z.to_int n).

Section Str.
(** [repr] of a list or dict is left to the interpreter. *)
Variable repr : json -> string.

(** [str(v)], as an f-string applies it. *)
Definition str (v : json) : string :=
  match v with
  | JNull => "None"
  | JBool true => "True"
  | JBool false => "False"
  | JNum n => str_int n
  | JStr s => s
  | _ => repr v
  end.
End Str.

(** [sep.join(parts)]: every part has to be a str. *)
Fixpoint join_strs (sep : string) (parts : list string) : string :=
  match parts with
  | [] => ""
  | [p] => p
  | p :: t => p ++ sep ++ join_strs sep t
  end.

Fixpoint as_strs (parts : list json) : res (list string) :=
  match parts with
  | [] => Ok []
  | JStr s :: t => rbind (as_strs t) (fun ss => Ok (s :: ss))
  | v :: _ => Raise (TypeError
      ("sequence item: expected str instance, " ++ type_name v ++ " found"))
  end.

Definition join (sep : string) (parts : list json) : res string :=
  rbind (as_strs parts) (fun ss => Ok (join_strs sep ss)).

End Py.

(** ** The transport and the generator protocol *)

Module Net.
Import Py.

Inductive http_method : Type := GET | POST.

(** One outbound call: the method, the URL, the query parameters of a GET
    or the JSON body of a POST (before encoding), and the headers passed
    with this call in addition to the client's own. *)
Record request : Type := Request {
  req_method : http_method;
  req_url : string;
  req_payload : json;
  req_headers : list (string * json)
}.

(** What the client reads from a response: [status_code], [text], and
    the outcome of [response.json()]. *)
Record response : Type := Response {
  status_code : Z;
  text : string;
  json_body : res json
}.

(** The remote side: the outcome of a call as a function of the number of
    calls made before it and of the request.  A transport error is a
    raised exception. *)
Definition network : Type := nat -> request -> res response.

(** The observable state of a run: the calls issued so far (most recent
    first) and the records the generator has yielded (most recent
    first). *)
Record world : Type := World {
  calls : list request;
  yielded : list json
}.

Definition start : world := World [] [].

(** The number of records yielded so far. *)
Definition count (w : world) : Z := Z.of_nat (List.length (yielded w)).

(** The calls in the order they were issued, the records in the order
    they were yielded. *)
Definition trace (w : world) : list request := rev (calls w).
Definition output (w : world) : list json := rev (yielded w).

(** A computation that may issue calls, yield records and raise. *)
Definition M (A : Type) : Type := world -> res A * world.

Definition ret {A} (a : A) : M A := fun w => (Ok a, w).
Definition throw {A} (e : pyexc) : M A := fun w => (Raise e, w).
Definition lift {A} (r : res A) : M A := fun w => (r, w).

Definition bind {A B} (m : M A) (k : A -> M B) : M B :=
  fun w => match m w with
           | (Ok a, w') => k a w'
           | (Raise e, w') => (Raise e, w')
           end.

(** [try: m  except Exception: h] *)
Definition try_except {A} (m : M A) (h : pyexc -> M A) : M A :=
  fun w => match m w with
           | (Ok a, w') => (Ok a, w')
           | (Raise e, w') => h e w'
           end.

Declare Scope net_scope.
Delimit Scope net_scope with net.
Notation "x <- m ;; k" := (bind m (fun x => k))
  (at level 100, m at next level, right associativity) : net_scope.
Notation "m ;;; k" := (bind m (fun _ => k))
  (at level 100, right associativity) : net_scope.

(** [self.client.get(...)] / [self.client.post(...)] *)
Definition send (net : network) (r : request) : M response :=
  fun w => (net (List.length (calls w)) r, World (r :: calls w) (yielded w)).

(** [yield v] *)
Definition yield (v : json) : M unit :=
  fun w => (Ok tt, World (calls w) (v :: yielded w)).

(** [implement_rate_limiting(lo, hi)] sleeps and does nothing else. *)
Definition implement_rate_limiting : M unit := ret tt.

(** The computation [m], run in [w], makes one call, yields nothing and
    raises [e]. *)
Definition fails_at_call {A} (m : M A) (w : world) (e : pyexc) : Prop :=
  fst (m w) = Raise e
  /\ List.length (calls (snd (m w))) = S (List.length (calls w))
  /\ yielded (snd (m w)) = yielded w.

(** The next call is answered with [resp], whatever the request. *)
Definition answers (net : network) (w : world) (resp : response) : Prop :=
  forall r, net (List.length (calls w)) r = Ok resp.

(** How a generator run ends: its body returns, an exception leaves it,
    or the loop is still running when the fuel of the model is spent. *)
Inductive ending : Type :=
| Finished
| Failed (e : pyexc)
| Running.

End Net.

(** ** The Twitter client ([src/twitter/twitter_api.py]) *)

Module Twitter.
Import Py Net.
Local Open Scope res_scope.
Local Open Scope net_scope.

Definition BASE_URL : string := "https://twitter.com/i/api/graphql".
Definition SEARCH_ENDPOINT : string := "7s4lUZO6Cgy-BdpXmK_MUQ/SearchTimeline".
Definition ACTIVATE_URL : string :=
  "https://api.twitter.com/1.1/guest/activate.json".
Definition BEARER : string :=
  "Bearer AAAAAAAAAAAAAAAAAAAAANRILgAAAAAAnNwIzUejRCOuH5E6I8xnZz4puTs=1Zv7ttfk8LF81IUq16cHjhLTvJu4FA33AGWWjCpTnA".

(** The fixed flag set sent with every search. *)
Definition features : json :=
  JDict [
    ("responsive_web_graphql_exclude_directive_enabled", JBool true);
    ("verified_phone_label_enabled", JBool false);
    ("creator_subscriptions_tweet_preview_api_enabled", JBool true);
    ("responsive_web_graphql_timeline_navigation_enabled", JBool true);
    ("responsive_web_graphql_skip_user_profile_image_extensions_enabled", JBool false);
    ("c9s_tweet_anatomy_moderator_badge_enabled", JBool true);
    ("tweetypie_unmention_optimization_enabled", JBool true);
    ("responsive_web_edit_tweet_api_enabled", JBool true);
    ("graphql_is_translatable_rweb_tweet_is_translatable_enabled", JBool true);
    ("view_counts_everywhere_api_enabled", JBool true);
    ("longform_notetweets_consumption_enabled", JBool true);
    ("responsive_web_twitter_article_tweet_consumption_enabled", JBool true);
    ("tweet_awards_web_tipping_enabled", JBool false);
    ("freedom_of_speech_not_reach_fetch_enabled", JBool true);
    ("standardized_nudges_misinfo", JBool true);
    ("tweet_with_visibility_results_prefer_gql_limited_actions_policy_enabled", JBool true);
    ("rweb_video_timestamps_enabled", JBool true);
    ("longform_notetweets_rich_text_read_enabled", JBool true);
    ("longform_notetweets_inline_media_enabled", JBool true);
    ("responsive_web_enhance_cards_enabled", JBool false)
  ].

(** [extract_tweet_data]: the Normalizer of the client. *)
Definition extract_user (user : json) : res json :=
  id <~ get user "id_str" ;;
  name <~ get user "name" ;;
  screen_name <~ get user "screen_name" ;;
  followers_count <~ get user "followers_count" ;;
  friends_count <~ get user "friends_count" ;;
  verified <~ get_or user "verified" (JBool false) ;;
  Ok (JDict [("id", id); ("name", name); ("screen_name", screen_name);
             ("followers_count", followers_count);
             ("friends_count", friends_count); ("verified", verified)]).

Definition extract_mention (m : json) : res json :=
  screen_name <~ get m "screen_name" ;;
  name <~ get m "name" ;;
  id <~ get m "id_str" ;;
  Ok (JDict [("screen_name", screen_name); ("name", name); ("id", id)]).

Definition extract_media (m : json) : res json :=
  type <~ get m "type" ;;
  url <~ get m "media_url_https" ;;
  alt_text <~ get m "ext_alt_text" ;;
  Ok (JDict [("type", type); ("url", url); ("alt_text", alt_text)]).

(** [[f(x) for x in legacy.get("entities", {}).get(field, [])]] *)
Definition over_entities (legacy : json) (field : string)
    (f : json -> res json) : res json :=
  entities <~ get_or legacy "entities" (JDict []) ;;
  items <~ get_or entities field (JList []) ;;
  xs <~ iter items ;;
  ys <~ rmap f xs ;;
  Ok (JList ys).

Definition extract_tweet_data (tweet : json) : res json :=
  legacy <~ get_or tweet "legacy" (JDict []) ;;
  core <~ get_or tweet "core" (JDict []) ;;
  user_results <~ get_or core "user_results" (JDict []) ;;
  result <~ get_or user_results "result" (JDict []) ;;
  user <~ get_or result "legacy" (JDict []) ;;
  id <~ get tweet "rest_id" ;;
  created_at <~ get legacy "created_at" ;;
  text <~ get legacy "full_text" ;;
  retweet_count <~ get legacy "retweet_count" ;;
  favorite_count <~ get legacy "favorite_count" ;;
  reply_count <~ get legacy "reply_count" ;;
  quote_count <~ get legacy "quote_count" ;;
  user_rec <~ extract_user user ;;
  hashtags <~ over_entities legacy "hashtags" (fun h => get h "text") ;;
  urls <~ over_entities legacy "urls" (fun u => get u "expanded_url") ;;
  mentions <~ over_entities legacy "user_mentions" extract_mention ;;
  entities <~ get_or legacy "entities" (JDict []) ;;
  has_media <~ contains "media" entities ;;
  media <~ (if has_media then over_entities legacy "media" extract_media
            else Ok (JList [])) ;;
  Ok (JDict [("id", id); ("created_at", created_at); ("text", text);
             ("retweet_count", retweet_count);
             ("favorite_count", favorite_count);
             ("reply_count", reply_count); ("quote_count", quote_count);
             ("user", user_rec); ("hashtags", hashtags); ("urls", urls);
             ("mentions", mentions); ("media", media)]).

(** A raw tweet in which every container that is present has the type
    [extract_tweet_data] expects: [legacy], its [entities], [core] and the
    objects down to the [legacy] of the user are dicts, the four entity
    lists are lists of dicts. *)
Definition entities_shape (entities : json) : bool :=
  dict_with "hashtags" is_dict_list entities
  && dict_with "urls" is_dict_list entities
  && dict_with "user_mentions" is_dict_list entities
  && dict_with "media" is_dict_list entities.

Definition tweet_shape (tweet : json) : bool :=
  dict_with "legacy" (dict_with "entities" entities_shape) tweet
  && dict_with "core"
       (dict_with "user_results"
          (dict_with "result" (dict_with "legacy" is_dict))) tweet.

(** The canonical fields and the place of their source in the raw tweet:
    the scalars, the lists, and the fields of [user]. *)
Definition scalar_sources : list (string * list string) :=
  [("id", ["rest_id"]);
   ("created_at", ["legacy"; "created_at"]);
   ("text", ["legacy"; "full_text"]);
   ("retweet_count", ["legacy"; "retweet_count"]);
   ("favorite_count", ["legacy"; "favorite_count"]);
   ("reply_count", ["legacy"; "reply_count"]);
   ("quote_count", ["legacy"; "quote_count"])].

Definition list_sources : list (string * list string) :=
  [("hashtags", ["legacy"; "entities"; "hashtags"]);
   ("urls", ["legacy"; "entities"; "urls"]);
   ("mentions", ["legacy"; "entities"; "user_mentions"]);
   ("media", ["legacy"; "entities"; "media"])].

Definition user_path (k : string) : list string :=
  ["core"; "user_results"; "result"; "legacy"; k].

Definition user_sources : list (string * list string) :=
  [("id", user_path "id_str");
   ("name", user_path "name");
   ("screen_name", user_path "screen_name");
   ("followers_count", user_path "followers_count");
   ("friends_count", user_path "friends_count")].

Section Client.
Variable net : network.

(** [_obtain_guest_token]: returns the value installed as the
    [X-Guest-Token] header.  The log line slices the token, which raises
    when the body has no usable [guest_token]. *)
Definition _obtain_guest_token : M json :=
  response <- send net (Request POST ACTIVATE_URL JNull
                          [("Authorization", JStr BEARER)]) ;;
  if status_code response =? 200 then
    data <- lift (json_body response) ;;
    guest_token <- lift (get data "guest_token") ;;
    lift (slice5 guest_token) ;;;
    ret guest_token
  else
    throw (Exception ("Failed to obtain guest token: "
                        ++ str_int (status_code response) ++ " "
                        ++ text response)).

(** [__init__(guest_token)] *)
Definition init (guest_token : json) : M json :=
  if truthy guest_token then ret guest_token else _obtain_guest_token.

(** [search(query, count, cursor)] *)
Definition search (query : string) (count : Z) (cursor : json) : M json :=
  let variables :=
    JDict ([("rawQuery", JStr query); ("count", JNum count);
            ("querySource", JStr "typed_query"); ("product", JStr "Top")]
           ++ (if truthy cursor then [("cursor", cursor)] else []))%list in
  let params := JDict [("variables", variables); ("features", features)] in
  let url := BASE_URL ++ "/" ++ SEARCH_ENDPOINT in
  implement_rate_limiting ;;;
  response <- send net (Request GET url params []) ;;
  if status_code response =? 200 then
    lift (json_body response)
  else
    throw (Exception ("Search failed: " ++ str_int (status_code response)
                        ++ " " ++ text response)).

Definition timeline_instructions (response_data : json) : res json :=
  data <~ get_or response_data "data" (JDict []) ;;
  by_query <~ get_or data "search_by_raw_query" (JDict []) ;;
  search_timeline <~ get_or by_query "search_timeline" (JDict []) ;;
  timeline <~ get_or search_timeline "timeline" (JDict []) ;;
  get_or timeline "instructions" (JList []).

(** The first loop of [search_all]: gather the entries of every
    [TimelineAddEntries] instruction. *)
Fixpoint collect_entries (instructions entries : list json)
    : res (list json) :=
  match instructions with
  | [] => Ok entries
  | instruction :: rest =>
      type <~ get instruction "type" ;;
      if eq_str type "TimelineAddEntries" then
        added <~ get_or instruction "entries" (JList []) ;;
        items <~ iter added ;;
        collect_entries rest (entries ++ items)
      else collect_entries rest entries
  end.

(** The second loop: the value of the first Bottom cursor, else [None]. *)
Fixpoint find_cursor (entries : list json) : res json :=
  match entries with
  | [] => Ok JNull
  | entry :: rest =>
      content <~ get_or entry "content" (JDict []) ;;
      entryType <~ get content "entryType" ;;
      if eq_str entryType "TimelineTimelineCursor" then
        cursorType <~ get content "cursorType" ;;
        if eq_str cursorType "Bottom" then get content "value"
        else find_cursor rest
      else find_cursor rest
  end.

(** The tweet carried by a timeline entry, if it carries one. *)
Definition entry_tweet (entry : json) : res (option json) :=
  content <~ get_or entry "content" (JDict []) ;;
  entryType <~ get content "entryType" ;;
  if eq_str entryType "TimelineTimelineItem" then
    itemContent <~ get_or content "itemContent" (JDict []) ;;
    has <~ contains "tweet_results" itemContent ;;
    if has then
      tweet_results <~ get_or itemContent "tweet_results" (JDict []) ;;
      tweet_data <~ get_or tweet_results "result" (JDict []) ;;
      Ok (if truthy tweet_data then Some tweet_data else None)
    else Ok None
  else Ok None.

(** The third loop: yield every tweet of the batch. *)
Fixpoint yield_tweets (entries : list json) (results_count : Z) : M Z :=
  match entries with
  | [] => ret results_count
  | entry :: rest =>
      found <- lift (entry_tweet entry) ;;
      match found with
      | Some tweet_data =>
          record <- lift (extract_tweet_data tweet_data) ;;
          yield record ;;;
          yield_tweets rest (results_count + 1)
      | None => yield_tweets rest results_count
      end
  end.

(** One turn of the [while] loop of [search_all], from the call to
    [search] to the log line: the new count and the new cursor. *)
Definition batch (query : string) (batch_size results_count : Z)
    (cursor : json) : M (Z * json) :=
  response_data <- search query batch_size cursor ;;
  instructions <- lift (timeline_instructions response_data) ;;
  instruction_list <- lift (iter instructions) ;;
  entries <- lift (collect_entries instruction_list []) ;;
  cursor' <- lift (find_cursor entries) ;;
  results_count' <- yield_tweets entries results_count ;;
  ret (results_count', cursor').

(** [search_all(query, max_results)], run until the generator ends or
    [fuel] turns of the loop have been taken. *)
Fixpoint search_all_from (fuel : nat) (query : string) (max_results : Z)
    (results_count : Z) (cursor : json) (w : world) : ending * world :=
  if results_count <? max_results then
    let batch_size := Z.min 20 (max_results - results_count) in
    if batch_size <=? 0 then (Finished, w)
    else
      match fuel with
      | O => (Running, w)
      | S fuel' =>
          match batch query batch_size results_count cursor w with
          | (Raise e, w') => (Failed e, w')
          | (Ok (results_count', cursor'), w') =>
              if negb (truthy cursor') || (max_results <=? results_count')
              then (Finished, w')
              else search_all_from fuel' query max_results
                     results_count' cursor' w'
          end
      end
  else (Finished, w).

Definition search_all (fuel : nat) (query : string) (max_results : Z)
    : ending * world :=
  search_all_from fuel query max_results 0 JNull start.

End Client.
End Twitter.

(** ** The markup parser, as far as the clients query it *)

Module Html.

(** An element found in a page: its attributes, its text ([get_text()])
    and its stripped text ([get_text(strip=True)]). *)
Record tag : Type := Tag {
  attrs : list (string * string);
  get_text : string;
  get_text_strip : string
}.

Fixpoint attr (name : string) (l : list (string * string)) : option string :=
  match l with
  | [] => None
  | (k, v) :: t => if String.eqb k name then Some v else attr name t
  end.

End Html.

(** ** The Indeed client ([src/indeed/indeed_api.py]) *)

Module Indeed.
Import Py Net Html.
Local Open Scope res_scope.
Local Open Scope net_scope.

Definition BASE_URL : string := "https://www.indeed.com".
Definition SEARCH_URL : string := "https://www.indeed.com/jobs".
Definition API_SEARCH_URL : string := "https://www.indeed.com/api/graphql".

Definition GRAPHQL_QUERY : string := "
                query JobSearchResults($searchParams: JobSearchParams!, $mosaicProviderJobCardsKeyword: String!) {
                    jobSearch(params: $searchParams) {
                        results {
                            job {
                                key
                                title
                                company {
                                    name
                                    reviewCount
                                    rating
                                }
                                location {
                                    city
                                    state
                                    country
                                }
                                salarySnippet {
                                    text
                                }
                                jobTypes
                                description
                                url
                                postingDate
                            }
                        }
                        pageInfo {
                            totalResults
                            nextPageToken
                        }
                    }
                }
            ".

(** What [_parse_html_results] looks up in one [job_seen_beacon] card:
    the [jobTitle] heading with the link inside it, and five other
    elements. *)
Record job_card : Type := JobCard {
  title_elem : option (tag * option tag);
  company_elem : option tag;
  location_elem : option tag;
  salary_elem : option tag;
  snippet_elem : option tag;
  date_elem : option tag
}.

(** What the client looks up in a parsed page: the CSRF meta tag, the
    [string] of every script tag, the [mosaic-provider-jobcards] div and
    the job cards. *)
Record soup : Type := Soup {
  csrf_meta : option tag;
  script_tags : list (option string);
  mosaic_provider : option tag;
  job_cards : list job_card
}.

(** The tokens of the session. *)
Record client : Type := Client {
  csrf_token : option string;
  indeed_csrf_token : option string
}.

Definition opt_str (o : option string) : json :=
  match o with
  | Some s => JStr s
  | None => JNull
  end.

Definition text_or (e : option tag) (default : json) : json :=
  match e with
  | Some t => JStr (get_text_strip t)
  | None => default
  end.

(** The body of the [try] in the loop of [_parse_html_results].  No query
    on a card raises, so no card is skipped. *)
Definition parse_card (card : job_card) : json :=
  let title := match title_elem card with
               | Some (t, _) => JStr (get_text_strip t)
               | None => JStr "Unknown Title"
               end in
  let job_link := match title_elem card with
                  | Some (_, a) => a
                  | None => None
                  end in
  let job_url := match job_link with
                 | Some a => match attr "href" (attrs a) with
                             | Some href => JStr (BASE_URL ++ href)
                             | None => JNull
                             end
                 | None => JNull
                 end in
  let job_id := match job_link with
                | Some a => opt_str (attr "data-jk" (attrs a))
                | None => JNull
                end in
  let company := text_or (company_elem card) (JStr "Unknown Company") in
  let location := text_or (location_elem card) (JStr "Unknown Location") in
  let salary := text_or (salary_elem card) JNull in
  let snippet := text_or (snippet_elem card) JNull in
  let date := text_or (date_elem card) JNull in
  JDict [("id", job_id); ("title", title); ("company", company);
         ("location", location); ("salary", salary);
         ("description", snippet); ("url", job_url);
         ("date_posted", date)].

Definition _parse_html_results (page : soup) : json :=
  let results := map parse_card (job_cards page) in
  JDict [("results", JList results);
         ("count", JNum (Z.of_nat (List.length results)))].

(** [_format_location(location)] *)
Definition _format_location (location : json) : res json :=
  city <~ get location "city" ;;
  state <~ get location "state" ;;
  country <~ get location "country" ;;
  let parts :=
    ((if truthy city then [city] else [])
     ++ (if truthy state then [state] else [])
     ++ (if truthy country && negb (truthy city || truthy state)
         then [country] else []))%list in
  match parts with
  | [] => Ok (JStr "Remote")
  | _ => joined <~ join ", " parts ;; Ok (JStr joined)
  end.

(** What the client runs against: the remote side, the markup parser
    applied to a response text, group 1 of the first match of the
    [csrfToken] pattern in a script, and [repr] of a list or dict inside
    an f-string. *)
Record environment : Type := Environment {
  env_net : network;
  env_BeautifulSoup : string -> soup;
  env_match_csrfToken : string -> option string;
  env_repr : json -> string
}.

Section Client.
Variable env : environment.
Local Abbreviation net := (env_net env).
Local Abbreviation BeautifulSoup := (env_BeautifulSoup env).
Local Abbreviation match_csrfToken := (env_match_csrfToken env).
Local Abbreviation repr := (env_repr env).

(** The loop of [_initialize_session] over the script tags. *)
Fixpoint scan_scripts (scripts : list (option string)) : option string :=
  match scripts with
  | [] => None
  | script :: rest =>
      match script with
      | Some s =>
          if truthy (JStr s) && is_substring "window._initialData" s then
            match match_csrfToken s with
            | Some token => Some token
            | None => scan_scripts rest
            end
          else scan_scripts rest
      | None => scan_scripts rest
      end
  end.

(** [_initialize_session], run by [__init__]. *)
Definition _initialize_session : M client :=
  response <- send net (Request GET BASE_URL JNull []) ;;
  if negb (status_code response =? 200) then
    throw (Exception ("Failed to initialize session: "
                        ++ str_int (status_code response)))
  else
    let page := BeautifulSoup (text response) in
    let csrf := match csrf_meta page with
                | Some meta => attr "content" (attrs meta)
                | None => None
                end in
    ret (Client csrf (scan_scripts (script_tags page))).

(** [_search_graphql(query, location, page, limit, mosaic_id)] *)
Definition _search_graphql (self : client) (query location : string)
    (page limit : Z) (mosaic_id : string) : M json :=
  if truthy (opt_str (indeed_csrf_token self)) then
    let graphql_query :=
      JDict [("operationName", JStr "JobSearchResults");
             ("variables",
              JDict [("searchParams",
                      JDict [("keyword", JStr query);
                             ("location", JStr location);
                             ("page", JNum page);
                             ("pageSize", JNum limit);
                             ("sortBy", JStr "relevance")]);
                     ("mosaicProviderJobCardsKeyword", JStr mosaic_id)]);
             ("query", JStr GRAPHQL_QUERY)] in
    let headers := [("Content-Type", JStr "application/json");
                    ("Indeed-CSRF-Token", opt_str (indeed_csrf_token self))] in
    implement_rate_limiting ;;;
    response <- send net (Request POST API_SEARCH_URL graphql_query headers) ;;
    if status_code response =? 200 then
      lift (json_body response)
    else
      throw (Exception ("GraphQL search failed: "
                          ++ str_int (status_code response) ++ " "
                          ++ text response))
  else
    throw (Exception "GraphQL CSRF token not available").

(** [search(query, location, page, limit)] *)
Definition search (self : client) (query location : string)
    (page limit : Z) : M json :=
  let params := JDict [("q", JStr query); ("l", JStr location);
                       ("start", JNum (page * limit));
                       ("limit", JNum limit)] in
  implement_rate_limiting ;;;
  response <- send net (Request GET SEARCH_URL params []) ;;
  if negb (status_code response =? 200) then
    throw (Exception ("Search failed: " ++ str_int (status_code response)))
  else
    let page_soup := BeautifulSoup (text response) in
    let mosaic_id := match mosaic_provider page_soup with
                     | Some div => attr "data-mosaic-id" (attrs div)
                     | None => None
                     end in
    if negb (truthy (opt_str mosaic_id)) then
      ret (_parse_html_results page_soup)
    else
      _search_graphql self query location page limit
        (match mosaic_id with Some id => id | None => "" end).

(** The record [search_all] builds from a GraphQL result. *)
Definition graphql_record (job : json) : res json :=
  job_data <~ subscript job "job" ;;
  id <~ get job_data "key" ;;
  title <~ get job_data "title" ;;
  company_obj <~ get_or job_data "company" (JDict []) ;;
  company <~ get company_obj "name" ;;
  location_obj <~ get_or job_data "location" (JDict []) ;;
  location <~ _format_location location_obj ;;
  salary_obj <~ get_or job_data "salarySnippet" (JDict []) ;;
  salary <~ get salary_obj "text" ;;
  job_types <~ get_or job_data "jobTypes" (JList []) ;;
  description <~ get job_data "description" ;;
  key <~ get job_data "key" ;;
  date_posted <~ get job_data "postingDate" ;;
  Ok (JDict [("id", id); ("title", title); ("company", company);
             ("location", location); ("salary", salary);
             ("job_types", job_types); ("description", description);
             ("url", JStr (BASE_URL ++ "/viewjob?jk=" ++ str repr key));
             ("date_posted", date_posted)]).

(** The jobs of a response and whether a further page is expected. *)
Definition read_batch (response_data : json) (batch_size : Z)
    : res (json * bool) :=
  has_data <~ contains "data" response_data ;;
  is_graphql <~ (if has_data then
                   data <~ subscript response_data "data" ;;
                   contains "jobSearch" data
                 else Ok false) ;;
  if is_graphql then
    data <~ subscript response_data "data" ;;
    jobSearch <~ subscript data "jobSearch" ;;
    jobs <~ subscript jobSearch "results" ;;
    pageInfo <~ subscript jobSearch "pageInfo" ;;
    nextPageToken <~ subscript pageInfo "nextPageToken" ;;
    Ok (jobs, match nextPageToken with JNull => false | _ => true end)
  else
    jobs <~ get_or response_data "results" (JList []) ;;
    n <~ len jobs ;;
    Ok (jobs, batch_size <=? n).

(** The [for job in jobs] loop, with its [break] at the maximum. *)
Fixpoint yield_jobs (jobs : list json) (max_results results_count : Z)
    : M Z :=
  match jobs with
  | [] => ret results_count
  | job :: rest =>
      is_graphql <- lift (contains "job" job) ;;
      record <- lift (if is_graphql then graphql_record job else Ok job) ;;
      yield record ;;;
      let results_count' := results_count + 1 in
      if max_results <=? results_count' then ret results_count'
      else yield_jobs rest max_results results_count'
  end.

(** One turn of the [while] loop of [search_all]: [None] when the batch
    is empty, else the new count and [has_next_page]. *)
Definition batch (self : client) (query location : string)
    (page batch_size max_results results_count : Z)
    : M (option (Z * bool)) :=
  response_data <- search self query location page batch_size ;;
  read <- lift (read_batch response_data batch_size) ;;
  if negb (truthy (fst read)) then ret None
  else
    job_list <- lift (iter (fst read)) ;;
    results_count' <- yield_jobs job_list max_results results_count ;;
    ret (Some (results_count', snd read)).

Definition page_size : Z := 10.

(** [search_all(query, location, max_results)], run until the generator
    ends or [fuel] turns of the loop have been taken. *)
Fixpoint search_all_from (fuel : nat) (self : client)
    (query location : string) (max_results results_count page : Z)
    (w : world) : ending * world :=
  if results_count <? max_results then
    let batch_size := Z.min page_size (max_results - results_count) in
    if batch_size <=? 0 then (Finished, w)
    else
      match fuel with
      | O => (Running, w)
      | S fuel' =>
          match batch self query location page batch_size max_results
                  results_count w with
          | (Raise e, w') => (Failed e, w')
          | (Ok None, w') => (Finished, w')
          | (Ok (Some (results_count', has_next_page)), w') =>
              if negb has_next_page || (max_results <=? results_count')
              then (Finished, w')
              else search_all_from fuel' self query location max_results
                     results_count' (page + 1) w'
          end
      end
  else (Finished, w).

Definition search_all (fuel : nat) (self : client)
    (query location : string) (max_results : Z) : ending * world :=
  search_all_from fuel self query location max_results 0 0 start.

End Client.
End Indeed.

(** ** The Yelp client ([src/yelp/yelp_api.py]) *)

Module Yelp.
Import Py Net Html.
Local Open Scope res_scope.
Local Open Scope net_scope.

Definition BASE_URL : string := "https://www.yelp.com".
Definition SEARCH_URL : string := "https://www.yelp.com/search".
Definition GRAPHQL_URL : string := "https://www.yelp.com/gql".

Definition GRAPHQL_QUERY : string := "
                query SearchPage($term: String!, $location: String!, $offset: Int!, $limit: Int!, $sortBy: String!) {
                    search(term: $term, location: $location, offset: $offset, limit: $limit, sortBy: $sortBy) {
                        total
                        business {
                            id
                            name
                            url
                            photos
                            rating
                            review_count
                            price
                            categories {
                                title
                                alias
                            }
                            location {
                                address1
                                city
                                state
                                postal_code
                                formatted_address
                            }
                            phone
                            distance
                        }
                        region {
                            center {
                                latitude
                                longitude
                            }
                        }
                    }
                }
            ".

(** The keys that the records of both page-based paths carry. *)
Definition common_keys : list string :=
  ["id"; "name"; "url"; "image_url"; "review_count"; "rating"; "price";
   "categories"; "location"; "phone"].

(** What [_parse_html_results] looks up in the container of a card. *)
Record container_elems : Type := Container {
  rating_elem : option tag;
  review_count_elem : option tag;
  price_elem : option tag;
  category_elems : list tag;
  address_elem : option tag
}.

(** A [businessName] card: its parent container and the link inside. *)
Record business_card : Type := BusinessCard {
  container : option container_elems;
  name_elem : option tag
}.

Record soup : Type := Soup {
  script_tags : list (option string);
  business_cards : list business_card
}.

(** The token of the session, [None] when the landing page has none. *)
Record client : Type := Client { csrf_token : option string }.

Definition opt_str (o : option string) : json :=
  match o with
  | Some s => JStr s
  | None => JNull
  end.

(** What the client runs against: the remote side; the markup parser
    applied to a response text; group 1 of the first match of a pattern
    (the [csrf] assignment of the landing page, the [__INITIAL_STATE__]
    assignment of a results page, the [/biz/] part of a URL, the star
    rating of a label, the number of reviews of a span); [json.loads],
    [None] when it raises JSONDecodeError; [float(s)] and [int(s)], with
    the number as the embedding holds it; [repr] of a list or dict inside
    an f-string. *)
Record environment : Type := Environment {
  env_net : network;
  env_BeautifulSoup : string -> soup;
  env_match_csrf : string -> option string;
  env_match_initial_state : string -> option string;
  env_match_biz_id : string -> option string;
  env_match_star_rating : string -> option string;
  env_match_review_count : string -> option string;
  env_json_loads : string -> option json;
  env_float : string -> res json;
  env_int : string -> res json;
  env_repr : json -> string
}.

Section Client.
Variable env : environment.
Local Abbreviation net := (env_net env).
Local Abbreviation BeautifulSoup := (env_BeautifulSoup env).
Local Abbreviation match_csrf := (env_match_csrf env).
Local Abbreviation match_initial_state := (env_match_initial_state env).
Local Abbreviation match_biz_id := (env_match_biz_id env).
Local Abbreviation match_star_rating := (env_match_star_rating env).
Local Abbreviation match_review_count := (env_match_review_count env).
Local Abbreviation json_loads := (env_json_loads env).
Local Abbreviation py_float := (env_float env).
Local Abbreviation py_int := (env_int env).
Local Abbreviation repr := (env_repr env).

(** The loop of [_initialize_session] over the script tags. *)
Fixpoint scan_csrf (scripts : list (option string)) : option string :=
  match scripts with
  | [] => None
  | script :: rest =>
      match script with
      | Some s =>
          if truthy (JStr s) && is_substring "yelp.www.init.csrf" s then
            match match_csrf s with
            | Some token => Some token
            | None => scan_csrf rest
            end
          else scan_csrf rest
      | None => scan_csrf rest
      end
  end.

(** [_initialize_session], run by [__init__]. *)
Definition _initialize_session : M client :=
  response <- send net (Request GET BASE_URL JNull []) ;;
  if negb (status_code response =? 200) then
    throw (Exception ("Failed to initialize session: "
                        ++ str_int (status_code response)))
  else
    ret (Client (scan_csrf (script_tags (BeautifulSoup (text response))))).

(** The record [_extract_from_initial_state] builds for one business. *)
Definition initial_state_record (business_data : json) : res json :=
  id <~ get business_data "id" ;;
  name <~ get business_data "name" ;;
  businessUrl <~ get business_data "businessUrl" ;;
  image_url <~ get business_data "photoPageUrl" ;;
  review_count <~ get business_data "reviewCount" ;;
  rating <~ get business_data "rating" ;;
  price <~ get business_data "priceRange" ;;
  cats <~ get_or business_data "categories" (JList []) ;;
  cat_list <~ iter cats ;;
  categories <~ rmap (fun cat =>
                        title <~ get cat "title" ;;
                        alias <~ get cat "alias" ;;
                        Ok (JDict [("title", title); ("alias", alias)]))
                     cat_list ;;
  address1 <~ get business_data "formattedAddress" ;;
  neighborhoods <~ get_or business_data "neighborhoods" (JList [JNull]) ;;
  city <~ subscript0 neighborhoods ;;
  display_address <~ get business_data "formattedAddress" ;;
  phone <~ get business_data "phone" ;;
  distance <~ get business_data "distance" ;;
  Ok (JDict [("id", id); ("name", name);
             ("url", JStr (BASE_URL ++ str repr businessUrl));
             ("image_url", image_url); ("review_count", review_count);
             ("rating", rating); ("price", price);
             ("categories", JList categories);
             ("location",
              JDict [("address1", address1); ("city", city);
                     ("state", JNull); ("zip_code", JNull);
                     ("display_address", display_address)]);
             ("phone", phone); ("distance", distance)]).

(** The loop of [_extract_from_initial_state]. *)
Fixpoint extract_businesses (results : list json) : res (list json) :=
  match results with
  | [] => Ok []
  | business :: rest =>
      type <~ get business "type" ;;
      if ne_str type "business" then extract_businesses rest
      else
        business_data <~ get_or business "business" (JDict []) ;;
        record <~ initial_state_record business_data ;;
        records <~ extract_businesses rest ;;
        Ok (record :: records)
  end.

Definition _extract_from_initial_state (initial_data : json) : res json :=
  search_page_props <~ get_or initial_data "searchPageProps" (JDict []) ;;
  search_results <~ get_or search_page_props "searchResultsProps" (JDict []) ;;
  search_response <~ get_or search_results "searchResponse" (JDict []) ;;
  results <~ get_or search_response "searchResults" (JList []) ;;
  result_list <~ iter results ;;
  businesses <~ extract_businesses result_list ;;
  total <~ get_or search_response "totalResults"
             (JNum (Z.of_nat (List.length businesses))) ;;
  mapState <~ get_or search_page_props "mapState" (JDict []) ;;
  center <~ get_or mapState "center" (JDict []) ;;
  latitude <~ get center "latitude" ;;
  longitude <~ get center "longitude" ;;
  Ok (JDict [("businesses", JList businesses); ("total", total);
             ("region",
              JDict [("center", JDict [("latitude", latitude);
                                       ("longitude", longitude)])])]).

(** The body of the [try] in the loop of [_parse_html_results]: [None]
    for a card without container ([continue]). *)
Definition parse_card (card : business_card) : res (option json) :=
  match container card with
  | None => Ok None
  | Some box =>
      let name := match name_elem card with
                  | Some a => JStr (get_text_strip a)
                  | None => JStr "Unknown Business"
                  end in
      let url := match name_elem card with
                 | Some a => match attr "href" (attrs a) with
                             | Some href => Some (BASE_URL ++ href)
                             | None => None
                             end
                 | None => None
                 end in
      let business_id :=
        match url with
        | Some u => if truthy (JStr u) then opt_str (match_biz_id u) else JNull
        | None => JNull
        end in
      rating <~ match rating_elem box with
                | Some stars =>
                    match attr "aria-label" (attrs stars) with
                    | Some rating_text =>
                        match match_star_rating rating_text with
                        | Some digits => py_float digits
                        | None => Ok JNull
                        end
                    | None => Ok JNull
                    end
                | None => Ok JNull
                end ;;
      review_count <~ match review_count_elem box with
                      | Some span =>
                          match match_review_count (get_text span) with
                          | Some digits => py_int digits
                          | None => Ok JNull
                          end
                      | None => Ok JNull
                      end ;;
      let price := match price_elem box with
                   | Some span => JStr (get_text span)
                   | None => JNull
                   end in
      let categories :=
        map (fun cat_elem =>
               JDict [("title", JStr (get_text_strip cat_elem));
                      ("alias", match attr "href" (attrs cat_elem) with
                                | Some href => JStr (last_segment href)
                                | None => JNull
                                end)])
            (category_elems box) in
      let address := match address_elem box with
                     | Some a => JStr (get_text_strip a)
                     | None => JNull
                     end in
      Ok (Some (JDict [("id", business_id); ("name", name);
                       ("url", opt_str url); ("image_url", JNull);
                       ("review_count", review_count); ("rating", rating);
                       ("price", price); ("categories", JList categories);
                       ("location", JDict [("display_address", address)]);
                       ("phone", JNull)]))
  end.

(** The loop of [_parse_html_results]: a card that raises is skipped. *)
Fixpoint parse_cards (cards : list business_card) : list json :=
  match cards with
  | [] => []
  | card :: rest =>
      match parse_card card with
      | Ok (Some record) => record :: parse_cards rest
      | Ok None => parse_cards rest
      | Raise _ => parse_cards rest
      end
  end.

Definition _parse_html_results (page : soup) : json :=
  let businesses := parse_cards (business_cards page) in
  JDict [("businesses", JList businesses);
         ("total", JNum (Z.of_nat (List.length businesses)));
         ("region",
          JDict [("center", JDict [("latitude", JNull);
                                   ("longitude", JNull)])])].

(** The loop of [search] over the script tags: the decoded initial
    state, [None] when no script yields one. *)
Fixpoint scan_initial_state (scripts : list (option string)) : json :=
  match scripts with
  | [] => JNull
  | script :: rest =>
      match script with
      | Some s =>
          if truthy (JStr s) && is_substring "window.__INITIAL_STATE__ = " s
          then
            match match_initial_state s with
            | Some blob =>
                match json_loads blob with
                | Some initial_data => initial_data
                | None => scan_initial_state rest
                end
            | None => scan_initial_state rest
            end
          else scan_initial_state rest
      | None => scan_initial_state rest
      end
  end.

(** The request [search] sends: the results page at [offset]. *)
Definition page_request (term location : string) (offset : Z) : request :=
  let params := JDict [("find_desc", JStr term); ("find_loc", JStr location);
                       ("start", JNum offset)] in
  Request GET SEARCH_URL params [].

(** [search(term, location, offset, limit)]: [limit] is not sent. *)
Definition search (self : client) (term location : string)
    (offset limit : Z) : M json :=
  implement_rate_limiting ;;;
  response <- send net (page_request term location offset) ;;
  if negb (status_code response =? 200) then
    throw (Exception ("Search failed: " ++ str_int (status_code response)))
  else
    let page := BeautifulSoup (text response) in
    let initial_data := scan_initial_state (script_tags page) in
    has_props <- lift (if truthy initial_data
                       then contains "searchPageProps" initial_data
                       else Ok false) ;;
    if has_props then lift (_extract_from_initial_state initial_data)
    else ret (_parse_html_results page).

(** The request [search_graphql] sends. *)
Definition graphql_request (self : client) (term location : string)
    (offset limit : Z) : request :=
  let graphql_query :=
    JDict [("operationName", JStr "SearchPage");
           ("variables",
            JDict [("term", JStr term); ("location", JStr location);
                   ("offset", JNum offset); ("limit", JNum limit);
                   ("sortBy", JStr "best_match")]);
           ("query", JStr GRAPHQL_QUERY)] in
  let headers := [("X-CSRF-Token", opt_str (csrf_token self))] in
  Request POST GRAPHQL_URL graphql_query headers.

(** The two requests a batch at [offset] with [batch_size] can send. *)
Definition batch_request (self : client) (term location : string)
    (offset batch_size : Z) (r : request) : Prop :=
  r = page_request term location offset
  \/ r = graphql_request self term location offset batch_size.

(** The body of the [try] of [search_graphql]: the POST and its check. *)
Definition post_graphql (self : client) (term location : string)
    (offset limit : Z) : M json :=
  response <- send net (graphql_request self term location offset limit) ;;
  if status_code response =? 200 then
    lift (json_body response)
  else
    throw (Exception ("GraphQL search failed: "
                        ++ str_int (status_code response) ++ " "
                        ++ text response)).

(** [search_graphql(term, location, offset, limit)] *)
Definition search_graphql (self : client) (term location : string)
    (offset limit : Z) : M json :=
  if truthy (opt_str (csrf_token self)) then
    implement_rate_limiting ;;;
    try_except
      (post_graphql self term location offset limit)
      (fun _ => search self term location offset limit)
  else
    throw (Exception "CSRF token not available").

(** The body of the [try] at the head of the loop of [search_all]: the
    businesses and the total of a batch, by the structured path. *)
Definition structured_batch (self : client) (term location : string)
    (offset batch_size : Z) : M (json * json) :=
  response_data <- search_graphql self term location offset batch_size ;;
  lift (data <~ get_or response_data "data" (JDict []) ;;
        found <~ get_or data "search" (JDict []) ;;
        businesses <~ get_or found "business" (JList []) ;;
        total <~ get_or found "total" (JNum 0) ;;
        Ok (businesses, total)).

(** The body of its [except]: the same by the page-based path. *)
Definition page_batch (self : client) (term location : string)
    (offset batch_size : Z) : M (json * json) :=
  response_data <- search self term location offset batch_size ;;
  lift (businesses <~ get_or response_data "businesses" (JList []) ;;
        total <~ get_or response_data "total" (JNum 0) ;;
        Ok (businesses, total)).

(** The [try]/[except] at the head of the loop of [search_all]. *)
Definition fetch (self : client) (term location : string)
    (offset batch_size : Z) : M (json * json) :=
  try_except
    (structured_batch self term location offset batch_size)
    (fun _ => page_batch self term location offset batch_size).

(** The [for business in businesses] loop, with its [break]. *)
Fixpoint yield_businesses (businesses : list json)
    (max_results results_count : Z) : M Z :=
  match businesses with
  | [] => ret results_count
  | business :: rest =>
      yield business ;;;
      let results_count' := results_count + 1 in
      if max_results <=? results_count' then ret results_count'
      else yield_businesses rest max_results results_count'
  end.

(** One turn of the [while] loop of [search_all]: [None] when the batch
    is empty, else the new count and whether it has reached the total. *)
Definition batch (self : client) (term location : string)
    (offset batch_size max_results results_count : Z)
    : M (option (Z * bool)) :=
  fetched <- fetch self term location offset batch_size ;;
  if negb (truthy (fst fetched)) then ret None
  else
    business_list <- lift (iter (fst fetched)) ;;
    results_count' <- yield_businesses business_list max_results
                        results_count ;;
    at_total <- lift (int_ge results_count' (snd fetched)) ;;
    ret (Some (results_count', at_total)).

Definition page_size : Z := 10.

(** [search_all(term, location, max_results)], run until the generator
    ends or [fuel] turns of the loop have been taken. *)
Fixpoint search_all_from (fuel : nat) (self : client)
    (term location : string) (max_results results_count offset : Z)
    (w : world) : ending * world :=
  if results_count <? max_results then
    let batch_size := Z.min page_size (max_results - results_count) in
    if batch_size <=? 0 then (Finished, w)
    else
      match fuel with
      | O => (Running, w)
      | S fuel' =>
          match batch self term location offset batch_size max_results
                  results_count w with
          | (Raise e, w') => (Failed e, w')
          | (Ok None, w') => (Finished, w')
          | (Ok (Some (results_count', at_total)), w') =>
              if at_total || (max_results <=? results_count')
              then (Finished, w')
              else search_all_from fuel' self term location max_results
                     results_count' (offset + batch_size) w'
          end
      end
  else (Finished, w).

Definition search_all (fuel : nat) (self : client)
    (term location : string) (max_results : Z) : ending * world :=
  search_all_from fuel self term location max_results 0 0 start.

End Client.
End Yelp.

(** ** Concrete remote sides *)

Module Scenario.
Import Py Net Html.

(** A timeline entry carrying a tweet with the given id. *)
Definition tweet_entry (id : string) : json :=
  JDict [("content",
          JDict [("entryType", JStr "TimelineTimelineItem");
                 ("itemContent",
                  JDict [("tweet_results",
                          JDict [("result",
                                  JDict [("rest_id", JStr id)])])])])].

(** A timeline entry carrying a Bottom cursor. *)
Definition cursor_entry (value : string) : json :=
  JDict [("content",
          JDict [("entryType", JStr "TimelineTimelineCursor");
                 ("cursorType", JStr "Bottom");
                 ("value", JStr value)])].

(** A search response whose timeline adds the given entries. *)
Definition timeline (entries : list json) : json :=
  JDict [("data",
    JDict [("search_by_raw_query",
      JDict [("search_timeline",
        JDict [("timeline",
          JDict [("instructions",
            JList [JDict [("type", JStr "TimelineAddEntries");
                          ("entries", JList entries)]])])])])])].

Definition ok_json (body : json) : res response :=
  Ok (Response 200 "" (Ok body)).

(** The [variables] object of a Twitter search request. *)
Definition search_variables (r : request) : res json :=
  get (req_payload r) "variables".

(** Every search returns two tweets and no cursor. *)
Definition two_tweets : network :=
  fun _ _ => ok_json (timeline [tweet_entry "1"; tweet_entry "2"]).

(** Every search returns a cursor and no tweet. *)
Definition cursor_only : network :=
  fun _ _ => ok_json (timeline [cursor_entry "scroll:1"]).

(** The first search returns a cursor and no tweet, the later ones one
    tweet and no cursor. *)
Definition cursor_then_tweet : network :=
  fun n _ => match n with
             | O => ok_json (timeline [cursor_entry "scroll:1"])
             | S _ => ok_json (timeline [tweet_entry "1"])
             end.

(** Every call is answered with status 500. *)
Definition unavailable : network :=
  fun _ _ => Ok (Response 500 "Internal Server Error"
                   (Raise (PyExc "JSONDecodeError" "Expecting value"))).

(** A job card in which every element is found and empty, and one in
    which none is. *)
Definition plain_tag : tag := Tag [] "" "".
Definition full_card : Indeed.job_card :=
  Indeed.JobCard (Some (plain_tag, Some (Tag [("href", "/rc/clk?jk=1");
                                              ("data-jk", "1")] "" "")))
    (Some plain_tag) (Some plain_tag) (Some plain_tag) (Some plain_tag)
    (Some plain_tag).
Definition bare_card : Indeed.job_card :=
  Indeed.JobCard None None None None None None.

(** The [limit] parameter of a results-page request. *)
Definition requested_limit (r : request) : nat :=
  match req_payload r with
  | JDict params => match lookup "limit" params with
                    | Some (JNum n) => Z.to_nat n
                    | _ => O
                    end
  | _ => O
  end.

(** An Indeed site without the structured path and with plenty of jobs:
    the results page holds as many cards as the request asks for; the
    page text is one character a card. *)
Definition pages_as_requested : network :=
  fun _ r => Ok (Response 200
                   (string_of_list_ascii (repeat "j"%char (requested_limit r)))
                   (Raise (PyExc "JSONDecodeError" "Expecting value"))).

Definition indeed_env (net : network) : Indeed.environment :=
  Indeed.Environment net
    (fun text => Indeed.Soup None [] None
                   (repeat bare_card (String.length text)))
    (fun _ => None)
    (fun _ => "").

Definition indeed_session : Indeed.client := Indeed.Client None None.

(** A search result of the Yelp initial state: business number [n]. *)
Definition business (n : nat) : json :=
  JDict [("type", JStr "business");
         ("business", JDict [("id", JStr (str_int (Z.of_nat n)));
                             ("name", JStr "Cafe")])].

(** The initial state of a results page: fifteen businesses from
    [first] on, out of a hundred. *)
Definition initial_state (first : nat) : json :=
  JDict [("searchPageProps",
    JDict [("searchResultsProps",
      JDict [("searchResponse",
        JDict [("searchResults", JList (map business (seq first 15)));
               ("totalResults", JNum 100)])])])].

(** The [start] parameter of a results-page request. *)
Definition requested_start (r : request) : res json :=
  get (req_payload r) "start".

Definition start_number (r : request) : nat :=
  match requested_start r with
  | Ok (JNum n) => Z.to_nat n
  | _ => O
  end.

Definition STATE_MARKER : string := "window.__INITIAL_STATE__ = ".

(** A Yelp site that rejects the GraphQL POST and serves results pages of
    fifteen businesses from the requested start on; the page text is one
    character for each business before the first of the page. *)
Definition fifteen_a_page : network :=
  fun _ r =>
    match req_method r with
    | POST => Ok (Response 500 "Internal Server Error"
                    (Raise (PyExc "JSONDecodeError" "Expecting value")))
    | GET => Ok (Response 200
                   (string_of_list_ascii (repeat "b"%char (start_number r)))
                   (Raise (PyExc "JSONDecodeError" "Expecting value")))
    end.

Definition after_prefix (n : nat) (s : string) : string :=
  substring n (String.length s - n) s.

Definition yelp_env (net : network) : Yelp.environment :=
  Yelp.Environment net
    (fun text => Yelp.Soup [Some (STATE_MARKER ++ text)] [])
    (fun _ => None)
    (fun script => Some (after_prefix (String.length STATE_MARKER) script))
    (fun url => Some (after_prefix 25 url))
    (fun _ => None)
    (fun _ => None)
    (fun blob => Some (initial_state (String.length blob)))
    (fun _ => Raise (PyExc "ValueError" "could not convert string to float"))
    (fun _ => Raise (PyExc "ValueError" "invalid literal for int()"))
    (fun _ => "").

(** A business card with its container, in which no element is found. *)
Definition bare_business_card : Yelp.business_card :=
  Yelp.BusinessCard (Some (Yelp.Container None None None [] None)) None.

(** A session without CSRF token, and one with a token. *)
Definition yelp_anonymous : Yelp.client := Yelp.Client None.
Definition yelp_session : Yelp.client := Yelp.Client (Some "c5rf").

(** The [id] of a yielded record, and the [id] of business number [n]. *)
Definition record_id (record : json) : res json := get record "id".
Definition business_id (n : nat) : res json :=
  Ok (JStr (str_int (Z.of_nat n))).

End Scenario.

(** ** The command line ([main.py]) and [save_to_json] ([src/utils.py]) *)

Module Main.
Import Py Net.

(** [s.replace(' ', '_')] *)
Fixpoint underscore (s : string) : string :=
  match s with
  | EmptyString => EmptyString
  | String c t =>
      String (if Ascii.eqb c " "%char then "_"%char else c) (underscore t)
  end.

(** The parsed arguments of a search command; [location] is not read by
    the Twitter command, [output_dir] is [None] unless given. *)
Record args : Type := Args {
  query : string;
  location : string;
  max_results : Z;
  output_dir : option string
}.

(** How a command ends: the results are saved ([save_to_json] returned
    this path), or printed, or the handler calls [sys.exit(code)], or an
    exception leaves the command, or the fuel of the model is spent. *)
Inductive outcome : Type :=
| Saved (file_path : string) (data : list json)
| Printed (data : list json)
| Exit (code : Z)
| Uncaught (e : pyexc)
| Unfinished.

Definition opt_str (o : option string) : json :=
  match o with
  | Some s => JStr s
  | None => JNull
  end.

(** The file system, as [save_to_json] uses it: [mkdir(parents=True,
    exist_ok=True)], writing the dump of the data to a path, the path of
    a file name under a directory ([Path(directory) / filename]) and the
    path of a file name alone ([Path(filename)]), both as strings. *)
Record file_system : Type := FileSystem {
  fs_mkdir : string -> res unit;
  fs_write : string -> list json -> res unit;
  fs_join : string -> string -> string;
  fs_path : string -> string
}.

Section Commands.
Variable fs : file_system.

(** [save_to_json(data, filename, directory)] *)
Definition save_to_json (data : list json) (filename : string)
    (directory : option string) : res string :=
  rbind (if truthy (opt_str directory) then
           let path := match directory with Some d => d | None => "" end in
           rbind (fs_mkdir fs path) (fun _ => Ok (fs_join fs path filename))
         else Ok (fs_path fs filename))
        (fun file_path =>
           rbind (fs_write fs file_path data) (fun _ => Ok file_path)).

(** The end of the [try] of a command, once the generator is exhausted:
    save under [output_dir], or print. *)
Definition report (name : string) (output_dir : option string)
    (results : list json) : outcome :=
  if truthy (opt_str output_dir) then
    let filename :=
      name ++ "_" ++ str_int (Z.of_nat (List.length results)) ++ ".json" in
    match save_to_json results filename output_dir with
    | Ok file_path => Saved file_path results
    | Raise _ => Exit 1
    end
  else Printed results.

(** What the [try] of a command makes of a generator run. *)
Definition conclude (name : string) (output_dir : option string)
    (run : ending * world) : outcome :=
  match fst run with
  | Finished => report name output_dir (output (snd run))
  | Failed _ => Exit 1
  | Running => Unfinished
  end.

(** [twitter_search(args)]: the client is built outside the [try]. *)
Definition twitter_search (net : network) (fuel : nat) (a : args)
    : outcome :=
  match Twitter.init net JNull start with
  | (Raise e, _) => Uncaught e
  | (Ok _, w) =>
      conclude ("twitter_search_" ++ underscore (query a)) (output_dir a)
        (Twitter.search_all_from net fuel (query a) (max_results a)
           0 JNull w)
  end.

(** [indeed_search(args)] *)
Definition indeed_search (env : Indeed.environment) (fuel : nat) (a : args)
    : outcome :=
  match Indeed._initialize_session env start with
  | (Raise e, _) => Uncaught e
  | (Ok self, w) =>
      conclude ("indeed_search_" ++ underscore (query a) ++ "_"
                  ++ underscore (location a)) (output_dir a)
        (Indeed.search_all_from env fuel self (query a) (location a)
           (max_results a) 0 0 w)
  end.

(** [yelp_search(args)]: the term is held by [query]. *)
Definition yelp_search (env : Yelp.environment) (fuel : nat) (a : args)
    : outcome :=
  match Yelp._initialize_session env start with
  | (Raise e, _) => Uncaught e
  | (Ok self, w) =>
      conclude ("yelp_search_" ++ underscore (query a) ++ "_"
                  ++ underscore (location a)) (output_dir a)
        (Yelp.search_all_from env fuel self (query a) (location a)
           (max_results a) 0 0 w)
  end.

End Commands.
End Main.

(** ** Further remote sides *)

Module Cases.
Import Py Net Html.

(** Every search returns one tweet and a cursor. *)
Definition tweet_and_cursor : network :=
  fun _ _ => Scenario.ok_json
               (Scenario.timeline [Scenario.tweet_entry "1";
                                   Scenario.cursor_entry "scroll:1"]).

(** A Yelp site whose every results page holds the initial state of
    [Scenario.initial_state 0]: fifteen businesses out of a hundred. *)
Definition same_page : network :=
  fun _ _ => Ok (Response 200 ""
                   (Raise (PyExc "JSONDecodeError" "Expecting value"))).

(** An Indeed results page with the mosaic div and no job card, a site
    whose GraphQL answer holds no job and the token of a next page, and a
    session with the GraphQL token. *)
Definition mosaic_soup : Indeed.soup :=
  Indeed.Soup None []
    (Some (Tag [("data-mosaic-id", "mosaic-provider-jobcards")] "" "")) [].

Definition no_jobs_next_page : json :=
  JDict [("data",
    JDict [("jobSearch",
      JDict [("results", JList []);
             ("pageInfo", JDict [("totalResults", JNum 90);
                                 ("nextPageToken", JStr "page-2")])])])].

Definition graphql_without_jobs : network :=
  fun _ r => match req_method r with
             | GET => Ok (Response 200 ""
                            (Raise (PyExc "JSONDecodeError" "Expecting value")))
             | POST => Scenario.ok_json no_jobs_next_page
             end.

Definition indeed_mosaic_env (net : network) : Indeed.environment :=
  Indeed.Environment net (fun _ => mosaic_soup) (fun _ => None)
    (fun _ => "").

Definition indeed_token_session : Indeed.client :=
  Indeed.Client None (Some "gql-token").

(** A Yelp site whose GraphQL answer holds no business and a total of a
    hundred. *)
Definition no_business_of_hundred : json :=
  JDict [("data",
    JDict [("search", JDict [("total", JNum 100);
                             ("business", JList [])])])].

Definition graphql_without_business : network :=
  fun _ _ => Scenario.ok_json no_business_of_hundred.

(** A Yelp site whose results pages carry no initial state and three
    business cards, of which the markup parser finds the container. *)
Definition three_cards : Yelp.soup :=
  Yelp.Soup [] (repeat Scenario.bare_business_card 3).

Definition yelp_html_env (net : network) : Yelp.environment :=
  Yelp.Environment net (fun _ => three_cards)
    (fun _ => None) (fun _ => None) (fun _ => None) (fun _ => None)
    (fun _ => None) (fun _ => None)
    (fun _ => Raise (PyExc "ValueError" "could not convert string to float"))
    (fun _ => Raise (PyExc "ValueError" "invalid literal for int()"))
    (fun _ => "").

(** The request [IndeedJobSearchAPI.search] sends for a results page. *)
Definition indeed_page_request (query location : string) (page limit : Z)
    : request :=
  Request GET Indeed.SEARCH_URL
    (JDict [("q", JStr query); ("l", JStr location);
            ("start", JNum (page * limit)); ("limit", JNum limit)]) [].

(** The mosaic id [search] reads from a parsed results page. *)
Definition mosaic_id_of (page : Indeed.soup) : option string :=
  match Indeed.mosaic_provider page with
  | Some div => attr "data-mosaic-id" (attrs div)
  | None => None
  end.

(** The [count] a Twitter search request asks for. *)
Definition requested_count (r : request) : option json :=
  at_path ["variables"; "count"] (req_payload r).

(** An Indeed site whose results pages carry the mosaic div and answer
    200. *)
Definition mosaic_pages : network :=
  fun _ _ => Ok (Response 200 ""
                   (Raise (PyExc "JSONDecodeError" "Expecting value"))).

(** A Twitter site that answers 200 with a body that has no [data]. *)
Definition errors_only : network :=
  fun _ _ => Scenario.ok_json
               (JDict [("errors", JList [JDict [("code", JNum 88)]])]).

(** A search result of the Yelp initial state that is a business. *)
Definition is_business (result : json) : bool :=
  match field "type" result with
  | Some type => eq_str type "business"
  | None => false
  end.

(** A location field that [_format_location] can join: missing, [None]
    or a str. *)
Definition str_or_none (k : string) (location : list (string * json))
    : bool :=
  match lookup k location with
  | Some (JStr _) | Some JNull | None => true
  | Some _ => false
  end.

Definition truthy_field (k : string) (location : list (string * json))
    : bool :=
  match lookup k location with
  | Some v => truthy v
  | None => false
  end.

(** A file system on which every directory can be made and every file
    written; paths are joined with a slash. *)
Definition plain_files : Main.file_system :=
  Main.FileSystem (fun _ => Ok tt) (fun _ _ => Ok tt)
    (fun directory filename => directory ++ "/" ++ filename)
    (fun filename => filename).

(** The arguments of a command that saves up to three results under
    [out], and the record of a job card in which no element is found. *)
Definition up_to_three : Main.args :=
  Main.Args "data engineer" "Austin TX" 3 (Some "out").


End Cases.

(** * Properties of the clients *)

Import Py Net.

(** C8. The job-location formatter maps city "Austin" with state "TX" to
    "Austin, TX", the empty mapping to "Remote", and a mapping holding
    only the country "UK" to "UK". *)
Theorem format_location_examples :
  Indeed._format_location
    (JDict [("city", JStr "Austin"); ("state", JStr "TX")])
  = Ok (JStr "Austin, TX")
  /\ Indeed._format_location (JDict []) = Ok (JStr "Remote")
  /\ Indeed._format_location (JDict [("country", JStr "UK")])
     = Ok (JStr "UK").
Proof. repeat split; reflexivity. Qed.

(** C1, at the input where the code departs from it.  Asked for at most
    one tweet, the Twitter generator sends one search with [count = 1];
    the response holds two tweets, and the generator yields both before it
    ends: the [for] loop over the entries of a batch has no test against
    [max_results]. *)
Theorem twitter_search_all_over_maximum :
  forall fuel : nat,
    let run := Twitter.search_all Scenario.two_tweets (S fuel) "rocq" 1 in
    fst run = Finished
    /\ List.length (trace (snd run)) = 1%nat
    /\ List.length (output (snd run)) = 2%nat.
Proof. intros fuel. repeat split; reflexivity. Qed.

(** C2, at the input where the code departs from it.  The first batch of
    the Twitter generator holds a Bottom cursor and no tweet; the
    generator does not end there: it sends a second search, with that
    cursor, and yields the tweet of the second batch. *)
Theorem twitter_search_all_continues_after_empty_batch :
  forall fuel : nat,
    let run :=
      Twitter.search_all Scenario.cursor_then_tweet (S (S fuel)) "rocq" 3 in
    fst run = Finished
    /\ map Scenario.search_variables (trace (snd run))
       = [Ok (JDict [("rawQuery", JStr "rocq"); ("count", JNum 3);
                     ("querySource", JStr "typed_query");
                     ("product", JStr "Top")]);
          Ok (JDict [("rawQuery", JStr "rocq"); ("count", JNum 3);
                     ("querySource", JStr "typed_query");
                     ("product", JStr "Top");
                     ("cursor", JStr "scroll:1")])]
    /\ List.length (output (snd run)) = 1%nat.
Proof. intros fuel. repeat split; reflexivity. Qed.

(** C4, at the input where the code departs from it.  For "engineer" in
    "Austin, TX" with [max_results = 15], against a site that serves as
    many jobs as asked for, the Indeed generator requests two batches, of
    10 and of 5, and yields 15 records; the [start] parameter of the
    second request is [page * limit = 1 * 5 = 5], not 10. *)
Theorem indeed_second_batch_starts_at_5 :
  forall fuel : nat,
    let run :=
      Indeed.search_all (Scenario.indeed_env Scenario.pages_as_requested)
        (S (S fuel)) Scenario.indeed_session "engineer" "Austin, TX" 15 in
    fst run = Finished
    /\ map req_payload (trace (snd run))
       = [JDict [("q", JStr "engineer"); ("l", JStr "Austin, TX");
                 ("start", JNum 0); ("limit", JNum 10)];
          JDict [("q", JStr "engineer"); ("l", JStr "Austin, TX");
                 ("start", JNum 5); ("limit", JNum 5)]]
    /\ List.length (output (snd run)) = 15%nat.
Proof. intros fuel. repeat split; reflexivity. Qed.

(** ** What a call does to the world *)

Ltac unfold_m :=
  unfold bind, ret, throw, lift, try_except, send, yield,
    implement_rate_limiting in *.

Ltac inv_pair :=
  repeat match goal with
         | H : (_, _) = (_, _) |- _ => inversion H; subst; clear H
         end.

Section TwitterCalls.
Variable net : network.

Lemma twitter_search_world query count cursor w r w' :
  Twitter.search net query count cursor w = (r, w') ->
  yielded w' = yielded w
  /\ List.length (calls w') = S (List.length (calls w)).
Proof.
  unfold Twitter.search. unfold_m. simpl.
  destruct (net _ _) as [resp|e]; [destruct (status_code resp =? 200)|];
    intros H; inv_pair; simpl; auto.
Qed.

Lemma twitter_batch_first query batch_size results_count cursor w e w' :
  Twitter.search net query batch_size cursor w = (Raise e, w') ->
  Twitter.batch net query batch_size results_count cursor w = (Raise e, w').
Proof.
  intros H. unfold Twitter.batch, bind at 1. rewrite H. reflexivity.
Qed.

End TwitterCalls.

Section IndeedCalls.
Variable env : Indeed.environment.

Lemma indeed_graphql_world self query location page limit mosaic_id w r w' :
  Indeed._search_graphql env self query location page limit mosaic_id w
  = (r, w') ->
  yielded w' = yielded w.
Proof.
  unfold Indeed._search_graphql. unfold_m. simpl.
  destruct (truthy _); [|intros H; inv_pair; reflexivity].
  destruct (Indeed.env_net env _ _) as [resp|e];
    [destruct (status_code resp =? 200)|];
    intros H; inv_pair; reflexivity.
Qed.

Lemma indeed_search_world self query location page limit w r w' :
  Indeed.search env self query location page limit w = (r, w') ->
  yielded w' = yielded w.
Proof.
  unfold Indeed.search. unfold_m. simpl.
  destruct (Indeed.env_net env _ _) as [resp|e];
    [|intros H; inv_pair; reflexivity].
  destruct (status_code resp =? 200); simpl;
    [|intros H; inv_pair; reflexivity].
  destruct (negb _); [intros H; inv_pair; reflexivity|].
  intros H. apply indeed_graphql_world in H. exact H.
Qed.

Lemma indeed_batch_first self query location page batch_size max_results
    results_count w e w' :
  Indeed.search env self query location page batch_size w = (Raise e, w') ->
  Indeed.batch env self query location page batch_size max_results
    results_count w = (Raise e, w').
Proof.
  intros H. unfold Indeed.batch, bind at 1. rewrite H. reflexivity.
Qed.

End IndeedCalls.

Section YelpCalls.
Variable env : Yelp.environment.

Lemma yelp_extract_shape initial_data r :
  Yelp._extract_from_initial_state env initial_data = Ok r ->
  exists businesses total region,
    r = JDict [("businesses", businesses); ("total", total);
               ("region", region)].
Proof.
  unfold Yelp._extract_from_initial_state.
  repeat match goal with
         | |- rbind ?x _ = Ok _ -> _ =>
             destruct x; simpl; [|discriminate]
         end.
  intros H. inversion H. eauto.
Qed.

(** A page search that returns, returns a dict with the three keys of
    the page shape. *)
Lemma yelp_search_shape self term location offset limit w r w' :
  Yelp.search env self term location offset limit w = (Ok r, w') ->
  exists businesses total region,
    r = JDict [("businesses", businesses); ("total", total);
               ("region", region)].
Proof.
  unfold Yelp.search. unfold_m. simpl.
  destruct (Yelp.env_net env _ _) as [resp|e]; [|discriminate].
  destruct (status_code resp =? 200); simpl; [|discriminate].
  match goal with
  | |- context [if ?c then ?a else Ok false] =>
      destruct (if c then a else Ok false) as [[|]|]
  end; simpl; try discriminate.
  - destruct (Yelp._extract_from_initial_state env _) eqn:E;
      intros H; inv_pair.
    eapply yelp_extract_shape; eauto.
  - intros H. inv_pair. unfold Yelp._parse_html_results. eauto.
Qed.

Lemma yelp_search_world self term location offset limit w r w' :
  Yelp.search env self term location offset limit w = (r, w') ->
  yielded w' = yielded w
  /\ calls w' = Yelp.page_request term location offset :: calls w.
Proof.
  unfold Yelp.search. unfold_m. simpl.
  destruct (Yelp.env_net env _ _) as [resp|e];
    [|intros H; inv_pair; auto].
  destruct (status_code resp =? 200); simpl; [|intros H; inv_pair; auto].
  match goal with
  | |- context [if ?c then ?a else Ok false] =>
      destruct (if c then a else Ok false) as [[|]|]
  end; simpl; intros H; inv_pair; auto.
Qed.

(** [search] does not read its [limit]. *)
Lemma yelp_search_ignores_limit self term location offset limit limit' :
  Yelp.search env self term location offset limit
  = Yelp.search env self term location offset limit'.
Proof. reflexivity. Qed.


End YelpCalls.

Section YelpFallback.
Variable env : Yelp.environment.

Lemma yelp_search_graphql_world self term location offset limit w r w' :
  Yelp.search_graphql env self term location offset limit w = (r, w') ->
  yielded w' = yielded w.
Proof.
  unfold Yelp.search_graphql.
  destruct (truthy _); [|unfold throw; intros H; inv_pair; reflexivity].
  unfold bind at 1, implement_rate_limiting, ret, try_except.
  destruct (Yelp.post_graphql env self term location offset limit w)
    as [[r0|e0] w0] eqn:E;
    (assert (yielded w0 = yielded w) as <-;
     [revert E; unfold Yelp.post_graphql; unfold_m; simpl;
      destruct (Yelp.env_net env _ _) as [resp|e1];
      [destruct (status_code resp =? 200)|];
      intros E; inv_pair; reflexivity|]).
  - intros H. inv_pair. reflexivity.
  - intros H. apply yelp_search_world in H. tauto.
Qed.

Lemma yelp_fetch_after_failure self term location offset batch_size w e1 w1 :
  Yelp.search_graphql env self term location offset batch_size w
  = (Raise e1, w1) ->
  Yelp.fetch env self term location offset batch_size w
  = Yelp.page_batch env self term location offset batch_size w1.
Proof.
  intros H. unfold Yelp.fetch, try_except, Yelp.structured_batch, bind at 1.
  rewrite H. reflexivity.
Qed.



End YelpFallback.



(** C6. When the query of the first page raises, the generator ends with
    that exception and has yielded nothing: for Twitter and Indeed when
    [search] raises, for Yelp when [search_graphql] raises and [search]
    raises after it. *)
Theorem first_page_failure_propagates
    (net : network) (ienv : Indeed.environment) (iself : Indeed.client)
    (yenv : Yelp.environment) (yself : Yelp.client)
    (fuel : nat) (query location : string) (max_results : Z)
    (e : pyexc) (w : world) :
  0 < max_results ->
  (Twitter.search net query (Z.min 20 max_results) JNull start
   = (Raise e, w) ->
   Twitter.search_all net (S fuel) query max_results = (Failed e, w)
   /\ output w = [])
  /\ (Indeed.search ienv iself query location 0 (Z.min 10 max_results) start
      = (Raise e, w) ->
      Indeed.search_all ienv (S fuel) iself query location max_results
      = (Failed e, w)
      /\ output w = [])
  /\ (forall e1 w1,
        Yelp.search_graphql yenv yself query location 0
          (Z.min 10 max_results) start = (Raise e1, w1) ->
        Yelp.search yenv yself query location 0 (Z.min 10 max_results) w1
        = (Raise e, w) ->
        Yelp.search_all yenv (S fuel) yself query location max_results
        = (Failed e, w)
        /\ output w = []).
Proof.
  intros Hmax.
  assert ((0 <? max_results) = true) as Hlt by (apply Z.ltb_lt; lia).
  assert (forall n, 0 < n -> Z.min n (max_results - 0) = Z.min n max_results)
    as Hmin by (intros; f_equal; lia).
  assert (forall n, 0 < n -> (Z.min n max_results <=? 0) = false)
    as Hpos by (intros; apply Z.leb_gt; lia).
  split; [|split].
  - intros H. split.
    + unfold Twitter.search_all, Twitter.search_all_from.
      rewrite Hlt; rewrite Hmin by lia; rewrite Hpos by lia.
      rewrite (twitter_batch_first _ _ _ _ _ _ _ _ H). reflexivity.
    + apply twitter_search_world in H. unfold output.
      destruct H as [-> _]. reflexivity.
  - intros H. split.
    + unfold Indeed.search_all, Indeed.search_all_from, Indeed.page_size.
      rewrite Hlt; rewrite Hmin by lia; rewrite Hpos by lia.
      rewrite (indeed_batch_first _ _ _ _ _ _ _ _ _ _ _ H). reflexivity.
    + apply indeed_search_world in H. unfold output. rewrite H. reflexivity.
  - intros e1 w1 Hg Hs. split.
    + unfold Yelp.search_all, Yelp.search_all_from, Yelp.page_size.
      rewrite Hlt; rewrite Hmin by lia; rewrite Hpos by lia.
      unfold Yelp.batch, bind at 1.
      rewrite (yelp_fetch_after_failure _ _ _ _ _ _ _ _ _ Hg).
      unfold Yelp.page_batch, bind at 1. rewrite Hs. reflexivity.
    + apply yelp_search_graphql_world in Hg. apply yelp_search_world in Hs.
      unfold output. destruct Hs as [-> _]. rewrite Hg. reflexivity.
Qed.

(** Against a site that answers every call with status 500, each of the
    three generators, asked for five records, fails on its first page
    with nothing yielded. *)
Lemma first_page_failure_propagates_witness :
  let failed := Exception "Search failed: 500 Internal Server Error" in
  let failed_page := Exception "Search failed: 500" in
  fst (Twitter.search_all Scenario.unavailable 1 "rocq" 5) = Failed failed
  /\ fst (Indeed.search_all (Scenario.indeed_env Scenario.unavailable) 1
            Scenario.indeed_session "engineer" "Austin, TX" 5)
     = Failed failed_page
  /\ fst (Yelp.search_all (Scenario.yelp_env Scenario.unavailable) 1
            Scenario.yelp_anonymous "cafe" "Austin, TX" 5)
     = Failed failed_page.
Proof.
  intros failed failed_page.
  set (ienv := Scenario.indeed_env Scenario.unavailable).
  set (yenv := Scenario.yelp_env Scenario.unavailable).
  split; [|split].
  - destruct (first_page_failure_propagates Scenario.unavailable ienv
                Scenario.indeed_session yenv Scenario.yelp_anonymous
                0 "rocq" "" 5 failed
                (snd (Twitter.search Scenario.unavailable "rocq" 5 JNull
                        start)))
      as [H _]; [lia|].
    destruct H as [-> _]; reflexivity.
  - destruct (first_page_failure_propagates Scenario.unavailable ienv
                Scenario.indeed_session yenv Scenario.yelp_anonymous
                0 "engineer" "Austin, TX" 5 failed_page
                (snd (Indeed.search ienv Scenario.indeed_session
                        "engineer" "Austin, TX" 0 5 start)))
      as [_ [H _]]; [lia|].
    destruct H as [-> _]; reflexivity.
  - destruct (first_page_failure_propagates Scenario.unavailable ienv
                Scenario.indeed_session yenv Scenario.yelp_anonymous
                0 "cafe" "Austin, TX" 5 failed_page
                (snd (Yelp.search yenv Scenario.yelp_anonymous
                        "cafe" "Austin, TX" 0 5 start)))
      as [_ [_ H]]; [lia|].
    destruct (H (Exception "CSRF token not available") start) as [-> _];
      reflexivity.
Defined.

(** ** The offsets of the Yelp driver *)

Section YelpOffsets.
Variable env : Yelp.environment.
Variable self : Yelp.client.
Variables term location : string.

Local Abbreviation yelp_batch_request :=
  (Yelp.batch_request self term location).

Lemma yelp_post_graphql_calls offset limit w r w' :
  Yelp.post_graphql env self term location offset limit w = (r, w') ->
  calls w' = Yelp.graphql_request self term location offset limit :: calls w.
Proof.
  unfold Yelp.post_graphql. unfold_m. simpl.
  destruct (Yelp.env_net env _ _) as [resp|e];
    [destruct (status_code resp =? 200)|];
    intros H; inv_pair; reflexivity.
Qed.

Lemma yelp_search_graphql_calls offset limit w r w' :
  Yelp.search_graphql env self term location offset limit w = (r, w') ->
  exists sent,
    calls w' = (sent ++ calls w)%list
    /\ Forall (yelp_batch_request offset limit) sent.
Proof.
  unfold Yelp.search_graphql.
  destruct (truthy _).
  - unfold bind at 1, implement_rate_limiting, ret, try_except.
    destruct (Yelp.post_graphql env self term location offset limit w)
      as [[r0|e0] w0] eqn:E; apply yelp_post_graphql_calls in E.
    + intros H. inv_pair.
      exists [Yelp.graphql_request self term location offset limit].
      split; [exact E|]. apply Forall_cons; [right; reflexivity|].
      apply Forall_nil.
    + intros H. apply yelp_search_world in H. destruct H as [_ H].
      exists [Yelp.page_request term location offset;
              Yelp.graphql_request self term location offset limit].
      split; [rewrite H, E; reflexivity|].
      apply Forall_cons; [left; reflexivity|].
      apply Forall_cons; [right; reflexivity|]. apply Forall_nil.
  - unfold throw. intros H. inv_pair. exists []. split; [reflexivity|].
    constructor.
Qed.

Lemma yelp_page_batch_calls offset batch_size w r w' :
  Yelp.page_batch env self term location offset batch_size w = (r, w') ->
  calls w' = Yelp.page_request term location offset :: calls w.
Proof.
  unfold Yelp.page_batch, bind.
  destruct (Yelp.search env self term location offset batch_size w)
    as [[r1|e1] w1] eqn:E1;
    apply yelp_search_world in E1; destruct E1 as [_ E1];
    unfold lift; intros H; inv_pair; exact E1.
Qed.

Lemma yelp_fetch_calls offset batch_size w r w' :
  Yelp.fetch env self term location offset batch_size w = (r, w') ->
  exists sent,
    calls w' = (sent ++ calls w)%list
    /\ Forall (yelp_batch_request offset batch_size) sent.
Proof.
  unfold Yelp.fetch, try_except, Yelp.structured_batch, bind at 1.
  assert (forall w0 sent,
            calls w0 = (sent ++ calls w)%list ->
            Forall (yelp_batch_request offset batch_size) sent ->
            Yelp.page_batch env self term location offset batch_size w0
            = (r, w') ->
            exists sent',
              calls w' = (sent' ++ calls w)%list
              /\ Forall (yelp_batch_request offset batch_size) sent')
    as Hpage.
  { intros w0 sent E Hsent H. apply yelp_page_batch_calls in H.
    exists (Yelp.page_request term location offset :: sent).
    split; [rewrite H, E; reflexivity|].
    apply Forall_cons; [left; reflexivity|exact Hsent]. }
  destruct (Yelp.search_graphql env self term location offset batch_size w)
    as [[r0|e0] w0] eqn:E;
    apply yelp_search_graphql_calls in E; destruct E as (sent & E & Hsent).
  - unfold lift.
    match goal with
    | |- context [rbind ?a ?k] => destruct (rbind a k)
    end.
    + intros H. inv_pair. eauto.
    + apply (Hpage w0 sent E Hsent).
  - apply (Hpage w0 sent E Hsent).
Qed.

Lemma yelp_yield_calls businesses max_results :
  forall results_count w r w',
    Yelp.yield_businesses businesses max_results results_count w = (r, w') ->
    calls w' = calls w.
Proof.
  induction businesses as [|b rest IH]; simpl; intros rc w r w'.
  - unfold ret. intros H. inv_pair. reflexivity.
  - unfold bind, yield. simpl.
    destruct (max_results <=? rc + 1).
    + unfold ret. intros H. inv_pair. reflexivity.
    + intros H. apply IH in H. exact H.
Qed.

Lemma yelp_batch_calls offset batch_size max_results results_count w r w' :
  Yelp.batch env self term location offset batch_size max_results
    results_count w = (r, w') ->
  exists sent,
    calls w' = (sent ++ calls w)%list
    /\ Forall (yelp_batch_request offset batch_size) sent.
Proof.
  unfold Yelp.batch, bind at 1.
  destruct (Yelp.fetch env self term location offset batch_size w)
    as [[fetched|e0] w0] eqn:E; apply yelp_fetch_calls in E.
  - destruct (negb _).
    + unfold ret. intros H. inv_pair. exact E.
    + unfold bind at 1, lift.
      destruct (iter (fst fetched)) as [l|e1];
        [|intros H; inv_pair; exact E].
      unfold bind at 1.
      destruct (Yelp.yield_businesses l max_results results_count w0)
        as [[rc|e2] w2] eqn:Ey; apply yelp_yield_calls in Ey.
      * unfold bind, lift, ret.
        destruct (int_ge rc (snd fetched)); intros H; inv_pair;
          rewrite Ey; exact E.
      * intros H. inv_pair. rewrite Ey. exact E.
  - intros H. inv_pair. exact E.
Qed.

End YelpOffsets.

(** C10. In the Yelp driver, when a batch is followed by another, the
    next batch is requested at the offset of this one plus the batch size
    asked for, [min(10, max_results - results_count)], whatever the batch
    returned and however many records it yielded; every request of the
    batch carries its offset, and the page request carries no limit.
    Against a site that serves fifteen businesses a page, a run for 25
    records requests the offsets 0 and 10 and yields the businesses 10 to
    14 twice. *)
Theorem yelp_offset_advances_by_batch_size
    (env : Yelp.environment) (self : Yelp.client) (term location : string)
    (fuel : nat) (max_results results_count offset : Z) (w : world)
    (results_count' : Z) (w' : world) :
  results_count < max_results ->
  Yelp.batch env self term location offset
    (Z.min 10 (max_results - results_count)) max_results results_count w
  = (Ok (Some (results_count', false)), w') ->
  results_count' < max_results ->
  (exists sent,
     calls w' = (sent ++ calls w)%list
     /\ Forall (Yelp.batch_request self term location offset
                  (Z.min 10 (max_results - results_count))) sent)
  /\ Yelp.search_all_from env (S fuel) self term location max_results
       results_count offset w
     = Yelp.search_all_from env fuel self term location max_results
         results_count' (offset + Z.min 10 (max_results - results_count)) w'
  /\ (forall limit,
        Yelp.search env self term location offset limit
        = Yelp.search env self term location offset
            (Z.min 10 (max_results - results_count)))
  /\ (let run := Yelp.search_all (Scenario.yelp_env Scenario.fifteen_a_page)
                   2 Scenario.yelp_anonymous "cafe" "Austin, TX" 25 in
      fst run = Finished
      /\ map Scenario.requested_start (trace (snd run))
         = [Ok (JNum 0); Ok (JNum 10)]
      /\ map Scenario.record_id (output (snd run))
         = map Scenario.business_id (seq 0 15 ++ seq 10 10)).
Proof.
  intros Hlt Hbatch Hlt'.
  split; [|split; [|split]].
  - eapply yelp_batch_calls; eauto.
  - simpl. unfold Yelp.page_size.
    replace (results_count <? max_results) with true
      by (symmetry; apply Z.ltb_lt; lia).
    replace (Z.min 10 (max_results - results_count) <=? 0) with false
      by (symmetry; apply Z.leb_gt; lia).
    rewrite Hbatch.
    replace (max_results <=? results_count') with false
      by (symmetry; apply Z.leb_gt; lia).
    reflexivity.
  - intros limit. reflexivity.
  - repeat split; vm_compute; reflexivity.
Qed.

(** The first batch of that run: asked for ten businesses at offset 0, it
    yields fifteen, and the second batch is requested at offset 10. *)
Lemma yelp_offset_advances_by_batch_size_witness :
  let env := Scenario.yelp_env Scenario.fifteen_a_page in
  let first := Yelp.batch env Scenario.yelp_anonymous "cafe" "Austin, TX"
                 0 10 25 0 start in
  fst first = Ok (Some (15, false))
  /\ Yelp.search_all_from env 2 Scenario.yelp_anonymous "cafe" "Austin, TX"
       25 0 0 start
     = Yelp.search_all_from env 1 Scenario.yelp_anonymous "cafe" "Austin, TX"
         25 15 10 (snd first).
Proof.
  intros env first. split; [reflexivity|].
  apply (yelp_offset_advances_by_batch_size env Scenario.yelp_anonymous
           "cafe" "Austin, TX" 1 25 0 0 start 15 (snd first)).
  - lia.
  - reflexivity.
  - lia.
Defined.

(** ** Failures *)




(** ** The keys of the records *)

Ltac destruct_rbind :=
  repeat match goal with
         | |- rbind ?x _ = Ok _ -> _ => destruct x; simpl; [|discriminate]
         end.

(** C3 fails as stated.  The record the Indeed generator builds from a
    GraphQL job has the key [job_types], the record of a parsed card has
    not; the record of the Yelp initial state has the key [distance], the
    record of a parsed card has not. *)
Lemma key_sets_differ_by_path :
  (exists r,
     Indeed.graphql_record (Scenario.indeed_env Scenario.unavailable)
       (JDict [("job", JDict [])]) = Ok r
     /\ ~ same_key_set r (Indeed.parse_card Scenario.bare_card))
  /\ (exists r r',
        Yelp.initial_state_record (Scenario.yelp_env Scenario.unavailable)
          (JDict []) = Ok r
        /\ Yelp.parse_card (Scenario.yelp_env Scenario.unavailable)
             Scenario.bare_business_card = Ok (Some r')
        /\ ~ same_key_set r r').
Proof.
  split.
  - eexists. split; [reflexivity|].
    intros H.
    assert (In "job_types"
              (record_keys (Indeed.parse_card Scenario.bare_card))) as Hin
      by (apply H; simpl; tauto).
    simpl in Hin.
    repeat (destruct Hin as [Hin|Hin]; [discriminate Hin|]). exact Hin.
  - eexists. eexists. split; [reflexivity|]. split; [reflexivity|].
    intros H.
    match type of H with
    | same_key_set _ ?html =>
        assert (In "distance" (record_keys html)) as Hin
          by (apply H; simpl; tauto)
    end.
    simpl in Hin.
    repeat (destruct Hin as [Hin|Hin]; [discriminate Hin|]). exact Hin.
Qed.

(** C3, as the code has it.  Every record the Indeed generator builds
    from a GraphQL job has nine keys, every record of a parsed Indeed card
    has the same keys but [job_types]; every record of the Yelp initial
    state and every record of a parsed Yelp card has the ten keys of
    [Yelp.common_keys]. *)
Theorem key_sets_of_each_path
    (ienv : Indeed.environment) (yenv : Yelp.environment)
    (job : json) (card : Indeed.job_card)
    (business_data : json) (business_card : Yelp.business_card)
    (r : json) :
  (Indeed.graphql_record ienv job = Ok r ->
   record_keys r
   = ["id"; "title"; "company"; "location"; "salary"; "job_types";
      "description"; "url"; "date_posted"])
  /\ record_keys (Indeed.parse_card card)
     = ["id"; "title"; "company"; "location"; "salary";
        "description"; "url"; "date_posted"]
  /\ (Yelp.initial_state_record yenv business_data = Ok r ->
      incl Yelp.common_keys (record_keys r))
  /\ (Yelp.parse_card yenv business_card = Ok (Some r) ->
      incl Yelp.common_keys (record_keys r)).
Proof.
  split; [|split; [|split]].
  - unfold Indeed.graphql_record. destruct_rbind.
    intros H. inversion H. reflexivity.
  - reflexivity.
  - unfold Yelp.initial_state_record. destruct_rbind.
    intros H. inversion H. simpl. unfold Yelp.common_keys.
    intros k Hk. simpl in Hk. simpl. tauto.
  - unfold Yelp.parse_card.
    destruct (Yelp.container business_card); [|discriminate].
    destruct_rbind.
    intros H. inversion H. simpl. apply incl_refl.
Qed.

(** The records of the four paths for a job and a business without any
    field, and for cards in which no element is found. *)
Lemma key_sets_of_each_path_witness :
  (exists r,
     Indeed.graphql_record (Scenario.indeed_env Scenario.unavailable)
       (JDict [("job", JDict [])]) = Ok r
     /\ List.length (record_keys r) = 9%nat)
  /\ (exists r,
        Yelp.initial_state_record (Scenario.yelp_env Scenario.unavailable)
          (JDict []) = Ok r
        /\ incl Yelp.common_keys (record_keys r))
  /\ (exists r,
        Yelp.parse_card (Scenario.yelp_env Scenario.unavailable)
          Scenario.bare_business_card = Ok (Some r)
        /\ incl Yelp.common_keys (record_keys r)).
Proof.
  split; [|split].
  - eexists. split; [reflexivity|].
    rewrite (proj1 (key_sets_of_each_path
                      (Scenario.indeed_env Scenario.unavailable)
                      (Scenario.yelp_env Scenario.unavailable)
                      (JDict [("job", JDict [])]) Scenario.bare_card
                      (JDict []) Scenario.bare_business_card _)
               eq_refl).
    reflexivity.
  - eexists. split; [reflexivity|].
    apply (proj1 (proj2 (proj2 (key_sets_of_each_path
                      (Scenario.indeed_env Scenario.unavailable)
                      (Scenario.yelp_env Scenario.unavailable)
                      (JDict [("job", JDict [])]) Scenario.bare_card
                      (JDict []) Scenario.bare_business_card _)))).
    reflexivity.
  - eexists. split; [reflexivity|].
    apply (proj2 (proj2 (proj2 (key_sets_of_each_path
                      (Scenario.indeed_env Scenario.unavailable)
                      (Scenario.yelp_env Scenario.unavailable)
                      (JDict [("job", JDict [])]) Scenario.bare_card
                      (JDict []) Scenario.bare_business_card _)))).
    reflexivity.
Defined.

(** ** The Normalizer on partial input *)

Lemma get_or_dict_with k p v :
  dict_with k p v = true ->
  p (JDict []) = true ->
  exists x,
    get_or v k (JDict []) = Ok x
    /\ p x = true
    /\ forall path, path <> [] ->
         at_path (k :: path) v = None -> at_path path x = None.
Proof.
  unfold dict_with. destruct v; simpl; try discriminate.
  destruct (lookup k fields) as [x|] eqn:E; intros Hp H0.
  - exists x. repeat split; auto.
  - exists (JDict []). repeat split; auto.
    intros [|k' rest] Hne _; [contradiction|reflexivity].
Qed.

Lemma rmap_total {A B} (f : A -> res B) (p : A -> bool) l :
  (forall x, p x = true -> exists y, f x = Ok y) ->
  forallb p l = true ->
  exists ys, rmap f l = Ok ys.
Proof.
  intros Hf. induction l as [|x t IH]; simpl; intros H.
  - eauto.
  - apply andb_true_iff in H as [Hx Ht].
    destruct (Hf x Hx) as [y ->]. destruct (IH Ht) as [ys ->].
    simpl. eauto.
Qed.

Lemma over_entities_total legacy name f :
  dict_with "entities" Twitter.entities_shape legacy = true ->
  In name ["hashtags"; "urls"; "user_mentions"; "media"] ->
  (forall x, is_dict x = true -> exists y, f x = Ok y) ->
  exists ys,
    Twitter.over_entities legacy name f = Ok (JList ys)
    /\ (at_path ["entities"; name] legacy = None -> ys = []).
Proof.
  intros Hl Hin Hf.
  destruct (get_or_dict_with _ _ _ Hl eq_refl) as (entities & Ee & Hes & Hep).
  unfold Twitter.over_entities. rewrite Ee. simpl.
  assert (dict_with name is_dict_list entities = true) as Hn.
  { unfold Twitter.entities_shape in Hes.
    apply andb_true_iff in Hes as [Hes H4].
    apply andb_true_iff in Hes as [Hes H3].
    apply andb_true_iff in Hes as [Hes H2].
    simpl in Hin. intuition (subst; assumption). }
  specialize (Hep [name]).
  unfold dict_with in Hn. destruct entities as [| | | | |ed]; try discriminate.
  simpl in Hn, Hep |- *.
  destruct (lookup name ed) as [items|] eqn:E.
  - destruct items as [| | | |l|]; try discriminate. simpl.
    destruct (rmap_total f is_dict l Hf Hn) as [ys ->]. simpl.
    exists ys. split; [reflexivity|].
    intros H. apply Hep in H; [discriminate|discriminate].
  - simpl. exists []. auto.
Qed.

Lemma dict_get_total d k : exists y, get (JDict d) k = Ok y.
Proof. simpl. eauto. Qed.

Lemma is_dict_inv v : is_dict v = true -> exists d, v = JDict d.
Proof. destruct v; try discriminate; eauto. Qed.

Lemma dict_with_is_dict k p v : dict_with k p v = true -> is_dict v = true.
Proof. unfold dict_with. intros H. apply andb_true_iff in H. tauto. Qed.

Lemma field_at_path k v : at_path [k] v = None -> field k v = None.
Proof. simpl. destruct (field k v); [discriminate|reflexivity]. Qed.

(** On a raw tweet of the expected shape, whatever fields it lacks,
    [extract_tweet_data] returns a record with the twelve canonical keys;
    a field whose source is missing is [None], or [False] for [verified],
    or the empty list for the four lists. *)
Lemma extract_tweet_data_total (tweet : json) :
  Twitter.tweet_shape tweet = true ->
  exists record user,
    Twitter.extract_tweet_data tweet = Ok (JDict record)
    /\ keys record
       = ["id"; "created_at"; "text"; "retweet_count"; "favorite_count";
          "reply_count"; "quote_count"; "user"; "hashtags"; "urls";
          "mentions"; "media"]
    /\ lookup "user" record = Some (JDict user)
    /\ keys user = ["id"; "name"; "screen_name"; "followers_count";
                    "friends_count"; "verified"]
    /\ (forall key path, In (key, path) Twitter.scalar_sources ->
          at_path path tweet = None -> lookup key record = Some JNull)
    /\ (forall key path, In (key, path) Twitter.list_sources ->
          at_path path tweet = None -> lookup key record = Some (JList []))
    /\ (forall key path, In (key, path) Twitter.user_sources ->
          at_path path tweet = None -> lookup key user = Some JNull)
    /\ (at_path (Twitter.user_path "verified") tweet = None ->
        lookup "verified" user = Some (JBool false)).
Proof.
  intros H. unfold Twitter.tweet_shape in H.
  apply andb_true_iff in H as [Hl Hc].
  destruct (get_or_dict_with _ _ _ Hl eq_refl) as (legacy & El & Hls & Hlp).
  destruct (get_or_dict_with _ _ _ Hc eq_refl) as (core & Ec & Hcs & Hcp).
  destruct (get_or_dict_with _ _ _ Hcs eq_refl) as (ur & Eur & Hurs & Hurp).
  destruct (get_or_dict_with _ _ _ Hurs eq_refl) as (rs & Ers & Hrss & Hrsp).
  destruct (get_or_dict_with _ _ _ Hrss eq_refl) as (user & Eu & Hus & Hup).
  destruct (get_or_dict_with _ _ _ Hls eq_refl) as (ents & Ee & Hes & Hep).
  assert (forall k x, is_dict x = true -> exists y, get x k = Ok y) as Hget.
  { intros k x Hx. apply is_dict_inv in Hx as [d ->].
    apply dict_get_total. }
  assert (forall x, is_dict x = true ->
                    exists y, Twitter.extract_mention x = Ok y) as Hmention
    by (intros x Hx; apply is_dict_inv in Hx as [d ->]; eexists; reflexivity).
  assert (forall x, is_dict x = true ->
                    exists y, Twitter.extract_media x = Ok y) as Hmedia
    by (intros x Hx; apply is_dict_inv in Hx as [d ->]; eexists; reflexivity).
  destruct (over_entities_total legacy "hashtags" (fun h => get h "text") Hls
              (or_introl eq_refl) (Hget "text"))
    as (hashtags & Eh & Hh).
  destruct (over_entities_total legacy "urls"
              (fun u => get u "expanded_url") Hls
              (or_intror (or_introl eq_refl)) (Hget "expanded_url"))
    as (urls & Eurl & Hurl).
  destruct (over_entities_total legacy "user_mentions"
              Twitter.extract_mention Hls
              (or_intror (or_intror (or_introl eq_refl))) Hmention)
    as (mentions & Em & Hm).
  destruct (over_entities_total legacy "media" Twitter.extract_media Hls
              (or_intror (or_intror (or_intror (or_introl eq_refl)))) Hmedia)
    as (media & Emd & Hmd).
  apply dict_with_is_dict in Hl. apply is_dict_inv in Hl as [td ->].
  apply dict_with_is_dict in Hls. apply is_dict_inv in Hls as [ld ->].
  apply is_dict_inv in Hus as [ud ->].
  assert (is_dict ents = true) as He.
  { unfold Twitter.entities_shape in Hes.
    apply andb_true_iff in Hes as [Hes _].
    apply andb_true_iff in Hes as [Hes _].
    apply andb_true_iff in Hes as [Hes _].
    apply dict_with_is_dict in Hes. exact Hes. }
  apply is_dict_inv in He as [ed ->].
  assert (forall k, at_path (Twitter.user_path k) (JDict td) = None ->
                    lookup k ud = None) as Huser.
  { intros k Hk. apply (field_at_path k (JDict ud)).
    apply Hup; [discriminate|]. apply Hrsp; [discriminate|].
    apply Hurp; [discriminate|]. apply Hcp; [discriminate|]. exact Hk. }
  assert (forall k, at_path ["legacy"; k] (JDict td) = None ->
                    lookup k ld = None) as Hleg.
  { intros k Hk. apply (field_at_path k (JDict ld)).
    apply Hlp; [discriminate|exact Hk]. }
  assert (forall k, at_path ["legacy"; "entities"; k] (JDict td) = None ->
                    at_path ["entities"; k] (JDict ld) = None) as Hent.
  { intros k Hk. apply Hlp; [discriminate|exact Hk]. }
  assert (exists media',
            (has_media <~ contains "media" (JDict ed) ;;
             if has_media
             then Twitter.over_entities (JDict ld) "media"
                    Twitter.extract_media
             else Ok (JList []))%res = Ok (JList media')
            /\ (at_path ["entities"; "media"] (JDict ld) = None ->
                media' = [])) as (media' & Emd' & Hmd').
  { simpl. destruct (lookup "media" ed).
    - exists media. auto.
    - exists []. auto. }
  unfold Twitter.extract_tweet_data.
  rewrite El, Ec. cbn [rbind]. rewrite Eur. cbn [rbind]. rewrite Ers.
  cbn [rbind]. rewrite Eu. cbn [rbind].
  rewrite Eh, Eurl, Em, Ee.
  cbn [rbind get get_or contains Twitter.extract_user].
  cbn [rbind contains] in Emd'.
  rewrite Emd'. cbn [rbind].
  eexists. eexists.
  split; [reflexivity|]. split; [reflexivity|]. split; [reflexivity|].
  split; [reflexivity|].
  split; [|split; [|split]].
  - intros key path Hin Hp. simpl in Hin.
    repeat (destruct Hin as [Hin|Hin];
            [inversion Hin; subst; clear Hin; simpl;
             try (rewrite (Hleg _ Hp); reflexivity)|]);
      [|contradiction].
    apply field_at_path in Hp. simpl in Hp. rewrite Hp. reflexivity.
  - intros key path Hin Hp. simpl in Hin.
    repeat (destruct Hin as [Hin|Hin];
            [inversion Hin; subst; clear Hin; simpl; apply Hent in Hp|]);
      [| | | |contradiction].
    + rewrite (Hh Hp). reflexivity.
    + rewrite (Hurl Hp). reflexivity.
    + rewrite (Hm Hp). reflexivity.
    + rewrite (Hmd' Hp). reflexivity.
  - intros key path Hin Hp. simpl in Hin.
    repeat (destruct Hin as [Hin|Hin];
            [inversion Hin; subst; clear Hin; simpl;
             rewrite (Huser _ Hp); reflexivity|]).
    contradiction.
  - intros Hp. simpl. rewrite (Huser _ Hp). reflexivity.
Qed.

(** C9 fails as stated.  A raw tweet whose [legacy] is [null] is a
    dictionary, and [extract_tweet_data] raises on it: the default of
    [get] replaces a missing field, not a field of another type. *)
Lemma extract_tweet_data_raises_on_null_legacy :
  Twitter.extract_tweet_data
    (JDict [("rest_id", JStr "1"); ("legacy", JNull)])
  = Raise (PyExc "AttributeError" "'NoneType' object has no attribute 'get'").
Proof. reflexivity. Qed.

(** C9, as the code has it.  On every raw tweet in which the containers
    that are present have the expected type, whatever fields it lacks,
    [extract_tweet_data] returns the canonical record, with [None] (or
    [False] for [verified], or the empty list) for every field whose source
    is missing.  For every job card, [_parse_html_results] builds a record
    in which a missing element gives [None], or one of the three "Unknown"
    markers. *)
Theorem normalizers_default_absent_fields
    (tweet : json) (card : Indeed.job_card) :
  (Twitter.tweet_shape tweet = true ->
   exists record user,
     Twitter.extract_tweet_data tweet = Ok (JDict record)
     /\ keys record
        = ["id"; "created_at"; "text"; "retweet_count"; "favorite_count";
           "reply_count"; "quote_count"; "user"; "hashtags"; "urls";
           "mentions"; "media"]
     /\ lookup "user" record = Some (JDict user)
     /\ keys user = ["id"; "name"; "screen_name"; "followers_count";
                     "friends_count"; "verified"]
     /\ (forall key path, In (key, path) Twitter.scalar_sources ->
           at_path path tweet = None -> lookup key record = Some JNull)
     /\ (forall key path, In (key, path) Twitter.list_sources ->
           at_path path tweet = None ->
           lookup key record = Some (JList []))
     /\ (forall key path, In (key, path) Twitter.user_sources ->
           at_path path tweet = None -> lookup key user = Some JNull)
     /\ (at_path (Twitter.user_path "verified") tweet = None ->
         lookup "verified" user = Some (JBool false)))
  /\ (exists fields,
        Indeed.parse_card card = JDict fields
        /\ (Indeed.title_elem card = None ->
            lookup "title" fields = Some (JStr "Unknown Title")
            /\ lookup "id" fields = Some JNull
            /\ lookup "url" fields = Some JNull)
        /\ (Indeed.company_elem card = None ->
            lookup "company" fields = Some (JStr "Unknown Company"))
        /\ (Indeed.location_elem card = None ->
            lookup "location" fields = Some (JStr "Unknown Location"))
        /\ (Indeed.salary_elem card = None ->
            lookup "salary" fields = Some JNull)
        /\ (Indeed.snippet_elem card = None ->
            lookup "description" fields = Some JNull)
        /\ (Indeed.date_elem card = None ->
            lookup "date_posted" fields = Some JNull)).
Proof.
  split.
  - apply extract_tweet_data_total.
  - eexists. split; [reflexivity|].
    destruct card as [title company location salary snippet date]. simpl.
    repeat split; intros; subst; reflexivity.
Qed.

(** A tweet that has an id and a text and nothing else: the record is
    built, and its [created_at] is [None]. *)
Lemma normalizers_default_absent_fields_witness :
  exists record,
    Twitter.extract_tweet_data
      (JDict [("rest_id", JStr "1");
              ("legacy", JDict [("full_text", JStr "hello")])])
    = Ok (JDict record)
    /\ lookup "text" record = Some (JStr "hello")
    /\ lookup "created_at" record = Some JNull.
Proof.
  destruct (proj1 (normalizers_default_absent_fields
                     (JDict [("rest_id", JStr "1");
                             ("legacy", JDict [("full_text", JStr "hello")])])
                     Scenario.bare_card) eq_refl)
    as (record & user & E & _ & _ & _ & Hscalar & _).
  exists record. split; [exact E|]. split.
  - simpl in E. inversion E. reflexivity.
  - apply (Hscalar "created_at" ["legacy"; "created_at"]).
    + simpl. tauto.
    + reflexivity.
Defined.

(** ** The bound and the end of the generators *)

(** Against a site whose every batch holds a cursor and no tweet, the
    Twitter generator is still running after any number of turns, one
    search a turn, with nothing yielded. *)
Lemma twitter_cursor_only_runs_on query max_results :
  0 < max_results ->
  forall fuel cursor w,
    exists w',
      Twitter.search_all_from Scenario.cursor_only fuel query max_results 0
        cursor w = (Running, w')
      /\ yielded w' = yielded w
      /\ List.length (calls w') = (fuel + List.length (calls w))%nat.
Proof.
  intros Hmax.
  assert ((0 <? max_results) = true) as Hlt by (apply Z.ltb_lt; lia).
  assert ((Z.min 20 (max_results - 0) <=? 0) = false) as Hpos
      by (apply Z.leb_gt; lia).
  assert ((max_results <=? 0) = false) as Hle by (apply Z.leb_gt; lia).
  induction fuel as [|fuel IH]; intros cursor w; simpl;
    rewrite Hlt, Hpos.
  - exists w. auto.
  - unfold Twitter.batch, Twitter.search. unfold_m. simpl.
    rewrite Hle. simpl.
    match goal with
    | |- context [Twitter.search_all_from _ _ _ _ _ ?c ?w1] =>
        destruct (IH c w1) as (w' & E & Hy & Hc)
    end.
    exists w'. split; [exact E|]. split; [exact Hy|].
    rewrite Hc. simpl. lia.
Qed.

Lemma iter_truthy v l : truthy v = true -> iter v = Ok l -> l <> [].
Proof.
  destruct v as [| | |s|items|fields]; simpl; try discriminate;
    intros Ht H; inversion H; clear H.
  - destruct s; [discriminate Ht|subst; simpl; discriminate].
  - destruct items; [discriminate Ht|subst; simpl; discriminate].
  - destruct fields; [discriminate Ht|subst; simpl; discriminate].
Qed.

Section IndeedBound.
Variable env : Indeed.environment.
Lemma indeed_yield_jobs_count jobs max_results :
  forall results_count w r w',
    results_count < max_results ->
    Indeed.yield_jobs env jobs max_results results_count w = (r, w') ->
    count w <= count w'
    /\ count w' - count w <= max_results - results_count
    /\ forall results_count', r = Ok results_count' ->
         results_count' = results_count + (count w' - count w)
         /\ results_count' <= max_results.
Proof.
  unfold count.
  induction jobs as [|job rest IH]; simpl; intros rc w r w' Hlt.
  - unfold ret. intros H. inv_pair. split; [lia|split; [lia|]].
    intros rc' H. inversion H. lia.
  - unfold bind at 1, lift.
    destruct (contains "job" job) as [is_graphql|e];
      [|intros H; inv_pair; split; [lia|split; [lia|discriminate]]].
    unfold bind at 1, lift.
    destruct (if is_graphql then Indeed.graphql_record env job else Ok job)
      as [record|e];
      [|intros H; inv_pair; split; [lia|split; [lia|discriminate]]].
    unfold bind at 1, yield.
    destruct (Z.leb_spec max_results (rc + 1)) as [Hge|Hnext].
    + unfold ret. intros H. inv_pair. cbn [yielded List.length].
      rewrite Nat2Z.inj_succ.
      split; [lia|split; [lia|]]. intros rc' H. inversion H. lia.
    + intros H. apply IH in H; [|lia]. cbn [yielded List.length] in H.
      rewrite Nat2Z.inj_succ in H.
      destruct H as (H0 & H1 & H2). split; [lia|split; [lia|]].
      intros rc' Hr. destruct (H2 rc' Hr). lia.
Qed.

Lemma indeed_batch_count self query location page batch_size max_results
    results_count w r w' :
  results_count < max_results ->
  Indeed.batch env self query location page batch_size max_results
    results_count w = (r, w') ->
  count w' - count w <= max_results - results_count
  /\ count w <= count w'
  /\ forall results_count' has_next_page,
       r = Ok (Some (results_count', has_next_page)) ->
       results_count' = results_count + (count w' - count w)
       /\ results_count' <= max_results.
Proof.
  intros Hlt. unfold Indeed.batch, bind at 1.
  destruct (Indeed.search env self query location page batch_size w)
    as [[response_data|e] w1] eqn:E;
    apply indeed_search_world in E; unfold count;
    [|intros H; inv_pair; rewrite E; split; [lia|split; [lia|discriminate]]].
  unfold bind at 1, lift.
  destruct (Indeed.read_batch response_data batch_size) as [read|e];
    [|intros H; inv_pair; rewrite E; split; [lia|split; [lia|discriminate]]].
  destruct (negb _).
  - unfold ret. intros H. inv_pair. rewrite E.
    split; [lia|split; [lia|discriminate]].
  - unfold bind at 1, lift.
    destruct (iter (fst read)) as [job_list|e];
      [|intros H; inv_pair; rewrite E;
        split; [lia|split; [lia|discriminate]]].
    unfold bind, ret.
    destruct (Indeed.yield_jobs env job_list max_results results_count w1)
      as [[rc|e] w2] eqn:Ey;
      apply indeed_yield_jobs_count in Ey; try exact Hlt;
      unfold count in Ey; rewrite E in Ey; destruct Ey as (H0 & H1 & H2);
      intros H; inv_pair.
    + destruct (H2 rc eq_refl) as [H3 H4].
      split; [lia|split; [lia|]].
      intros rc' hnp Hr. inversion Hr. subst. lia.
    + split; [lia|split; [lia|discriminate]].
Qed.

Lemma indeed_yield_jobs_progress jobs max_results results_count w
    results_count' w' :
  jobs <> [] ->
  results_count < max_results ->
  Indeed.yield_jobs env jobs max_results results_count w
  = (Ok results_count', w') ->
  results_count < results_count'.
Proof.
  destruct jobs as [|job rest]; [contradiction|]. intros _ Hlt. simpl.
  unfold bind at 1, lift.
  destruct (contains "job" job) as [is_graphql|e]; [|discriminate].
  unfold bind at 1, lift.
  destruct (if is_graphql then Indeed.graphql_record env job else Ok job)
    as [record|e]; [|discriminate].
  unfold bind at 1, yield.
  destruct (Z.leb_spec max_results (results_count + 1)) as [Hge|Hnext].
  - unfold ret. intros H. inv_pair. lia.
  - intros H. apply indeed_yield_jobs_count in H; [|lia].
    destruct H as (H0 & _ & H2). destruct (H2 _ eq_refl). lia.
Qed.

Lemma indeed_batch_progress self query location page batch_size max_results
    results_count w results_count' has_next_page w' :
  results_count < max_results ->
  Indeed.batch env self query location page batch_size max_results
    results_count w = (Ok (Some (results_count', has_next_page)), w') ->
  results_count < results_count'.
Proof.
  intros Hlt. unfold Indeed.batch, bind at 1.
  destruct (Indeed.search env self query location page batch_size w)
    as [[response_data|e] w1]; [|discriminate].
  unfold bind at 1, lift.
  destruct (Indeed.read_batch response_data batch_size) as [read|e];
    [|discriminate].
  destruct (truthy (fst read)) eqn:Ht; simpl; [|discriminate].
  unfold bind at 1, lift.
  destruct (iter (fst read)) as [job_list|e] eqn:Ei; [|discriminate].
  unfold bind, ret.
  destruct (Indeed.yield_jobs env job_list max_results results_count w1)
    as [[rc|e] w2] eqn:Ey; [|discriminate].
  intros H. inv_pair.
  eapply indeed_yield_jobs_progress; eauto using iter_truthy.
Qed.

(** The Indeed generator ends within [max_results - results_count] turns
    of its loop. *)
Lemma indeed_search_all_ends self query location max_results :
  forall fuel results_count page w,
    max_results - results_count <= Z.of_nat fuel ->
    fst (Indeed.search_all_from env fuel self query location max_results
           results_count page w) <> Running.
Proof.
  induction fuel as [|fuel IH]; intros rc page w Hfuel; simpl;
    destruct (Z.ltb_spec rc max_results) as [Hlt|Hge];
    try (simpl; discriminate); try lia.
  destruct (_ <=? 0); [simpl; discriminate|].
  destruct (Indeed.batch env self query location page
              (Z.min Indeed.page_size (max_results - rc)) max_results rc w)
    as [[[[rc' hnp]|]|e0] w1] eqn:E; try (simpl; discriminate).
  apply indeed_batch_progress in E; [|exact Hlt].
  destruct (negb hnp || (max_results <=? rc')); [simpl; discriminate|].
  apply IH. lia.
Qed.

Lemma indeed_search_all_count fuel self query location max_results :
  forall results_count page w e w',
    Indeed.search_all_from env fuel self query location max_results
      results_count page w = (e, w') ->
    count w <= count w'
    /\ count w' - count w <= Z.max 0 (max_results - results_count).
Proof.
  induction fuel as [|fuel IH]; intros rc page w e w'; simpl;
    destruct (Z.ltb_spec rc max_results) as [Hlt|Hge];
    try (intros H; inv_pair; lia).
  - destruct (_ <=? 0); intros H; inv_pair; lia.
  - destruct (_ <=? 0); [intros H; inv_pair; lia|].
    destruct (Indeed.batch env self query location page
                (Z.min Indeed.page_size (max_results - rc)) max_results rc w)
      as [[[[rc' hnp]|]|e0] w1] eqn:E;
      apply indeed_batch_count in E; try exact Hlt;
      destruct E as (H0 & H1 & H2);
      try (intros H; inv_pair; lia).
    destruct (H2 rc' hnp eq_refl) as [H3 H4].
    destruct (negb hnp || (max_results <=? rc'));
      [intros H; inv_pair; lia|].
    intros H. apply IH in H. lia.
Qed.
End IndeedBound.

Section YelpBound.
Variable env : Yelp.environment.

Lemma yelp_fetch_world self term location offset batch_size w r w' :
  Yelp.fetch env self term location offset batch_size w = (r, w') ->
  yielded w' = yielded w.
Proof.
  unfold Yelp.fetch, try_except, Yelp.structured_batch, bind at 1.
  assert (forall w0, yielded w0 = yielded w ->
            Yelp.page_batch env self term location offset batch_size w0
            = (r, w') -> yielded w' = yielded w) as Hpage.
  { intros w0 E0. unfold Yelp.page_batch, bind.
    destruct (Yelp.search env self term location offset batch_size w0)
      as [[r1|e1] w1] eqn:E1; apply yelp_search_world in E1;
      destruct E1 as [E1 _]; unfold lift; intros H; inv_pair;
      congruence. }
  destruct (Yelp.search_graphql env self term location offset batch_size w)
    as [[r0|e0] w0] eqn:E; apply yelp_search_graphql_world in E.
  - unfold lift.
    match goal with
    | |- context [rbind ?a ?k] => destruct (rbind a k)
    end.
    + intros H. inv_pair. exact E.
    + apply (Hpage w0 E).
  - apply (Hpage w0 E).
Qed.

Lemma yelp_yield_businesses_count businesses max_results :
  forall results_count w r w',
    results_count < max_results ->
    Yelp.yield_businesses businesses max_results results_count w = (r, w') ->
    count w <= count w'
    /\ count w' - count w <= max_results - results_count
    /\ forall results_count', r = Ok results_count' ->
         results_count' = results_count + (count w' - count w)
         /\ results_count' <= max_results.
Proof.
  unfold count.
  induction businesses as [|business rest IH]; simpl; intros rc w r w' Hlt.
  - unfold ret. intros H. inv_pair. split; [lia|split; [lia|]].
    intros rc' H. inversion H. lia.
  - unfold bind at 1, yield.
    destruct (Z.leb_spec max_results (rc + 1)) as [Hge|Hnext].
    + unfold ret. intros H. inv_pair. cbn [yielded List.length].
      rewrite Nat2Z.inj_succ.
      split; [lia|split; [lia|]]. intros rc' H. inversion H. lia.
    + intros H. apply IH in H; [|lia]. cbn [yielded List.length] in H.
      rewrite Nat2Z.inj_succ in H.
      destruct H as (H0 & H1 & H2). split; [lia|split; [lia|]].
      intros rc' Hr. destruct (H2 rc' Hr). lia.
Qed.

Lemma yelp_batch_count self term location offset batch_size max_results
    results_count w r w' :
  results_count < max_results ->
  Yelp.batch env self term location offset batch_size max_results
    results_count w = (r, w') ->
  count w <= count w'
  /\ count w' - count w <= max_results - results_count
  /\ forall results_count' at_total,
       r = Ok (Some (results_count', at_total)) ->
       results_count' = results_count + (count w' - count w)
       /\ results_count' <= max_results.
Proof.
  intros Hlt. unfold Yelp.batch, bind at 1.
  destruct (Yelp.fetch env self term location offset batch_size w)
    as [[fetched|e] w1] eqn:E;
    apply yelp_fetch_world in E; unfold count;
    [|intros H; inv_pair; rewrite E; split; [lia|split; [lia|discriminate]]].
  destruct (negb _).
  - unfold ret. intros H. inv_pair. rewrite E.
    split; [lia|split; [lia|discriminate]].
  - unfold bind at 1, lift.
    destruct (iter (fst fetched)) as [business_list|e];
      [|intros H; inv_pair; rewrite E;
        split; [lia|split; [lia|discriminate]]].
    unfold bind at 1.
    destruct (Yelp.yield_businesses business_list max_results results_count
                w1) as [[rc|e] w2] eqn:Ey;
      apply yelp_yield_businesses_count in Ey; try exact Hlt;
      unfold count in Ey; rewrite E in Ey; destruct Ey as (H0 & H1 & H2).
    + unfold bind, lift, ret.
      destruct (H2 rc eq_refl) as [H3 H4].
      destruct (int_ge rc (snd fetched)); intros H; inv_pair;
        (split; [lia|split; [lia|]]); [|discriminate].
      intros rc' at_total Hr. inversion Hr. subst. lia.
    + intros H. inv_pair. split; [lia|split; [lia|discriminate]].
Qed.

Lemma yelp_yield_businesses_progress businesses max_results results_count w
    results_count' w' :
  businesses <> [] ->
  results_count < max_results ->
  Yelp.yield_businesses businesses max_results results_count w
  = (Ok results_count', w') ->
  results_count < results_count'.
Proof.
  destruct businesses as [|business rest]; [contradiction|].
  intros _ Hlt. simpl. unfold bind at 1, yield.
  destruct (Z.leb_spec max_results (results_count + 1)) as [Hge|Hnext].
  - unfold ret. intros H. inv_pair. lia.
  - intros H. apply yelp_yield_businesses_count in H; [|lia].
    destruct H as (H0 & _ & H2). destruct (H2 _ eq_refl). lia.
Qed.

Lemma yelp_batch_progress self term location offset batch_size max_results
    results_count w results_count' at_total w' :
  results_count < max_results ->
  Yelp.batch env self term location offset batch_size max_results
    results_count w = (Ok (Some (results_count', at_total)), w') ->
  results_count < results_count'.
Proof.
  intros Hlt. unfold Yelp.batch, bind at 1.
  destruct (Yelp.fetch env self term location offset batch_size w)
    as [[fetched|e] w1]; [|discriminate].
  destruct (truthy (fst fetched)) eqn:Ht; simpl; [|discriminate].
  unfold bind at 1, lift.
  destruct (iter (fst fetched)) as [business_list|e] eqn:Ei; [|discriminate].
  unfold bind at 1.
  destruct (Yelp.yield_businesses business_list max_results results_count w1)
    as [[rc|e] w2] eqn:Ey; [|discriminate].
  unfold bind, lift, ret.
  destruct (int_ge rc (snd fetched)); [|discriminate].
  intros H. inv_pair.
  eapply yelp_yield_businesses_progress; eauto using iter_truthy.
Qed.

(** The Yelp generator ends within [max_results - results_count] turns of
    its loop. *)
Lemma yelp_search_all_ends self term location max_results :
  forall fuel results_count offset w,
    max_results - results_count <= Z.of_nat fuel ->
    fst (Yelp.search_all_from env fuel self term location max_results
           results_count offset w) <> Running.
Proof.
  induction fuel as [|fuel IH]; intros rc offset w Hfuel; simpl;
    destruct (Z.ltb_spec rc max_results) as [Hlt|Hge];
    try (simpl; discriminate); try lia.
  destruct (_ <=? 0); [simpl; discriminate|].
  destruct (Yelp.batch env self term location offset
              (Z.min Yelp.page_size (max_results - rc)) max_results rc w)
    as [[[[rc' at_total]|]|e0] w1] eqn:E; try (simpl; discriminate).
  apply yelp_batch_progress in E; [|exact Hlt].
  destruct (at_total || (max_results <=? rc')); [simpl; discriminate|].
  apply IH. lia.
Qed.

Lemma yelp_search_all_count fuel self term location max_results :
  forall results_count offset w e w',
    Yelp.search_all_from env fuel self term location max_results
      results_count offset w = (e, w') ->
    count w <= count w'
    /\ count w' - count w <= Z.max 0 (max_results - results_count).
Proof.
  induction fuel as [|fuel IH]; intros rc offset w e w'; simpl;
    destruct (Z.ltb_spec rc max_results) as [Hlt|Hge];
    try (intros H; inv_pair; lia).
  - destruct (_ <=? 0); intros H; inv_pair; lia.
  - destruct (_ <=? 0); [intros H; inv_pair; lia|].
    destruct (Yelp.batch env self term location offset
                (Z.min Yelp.page_size (max_results - rc)) max_results rc w)
      as [[[[rc' at_total]|]|e0] w1] eqn:E;
      apply yelp_batch_count in E; try exact Hlt;
      destruct E as (H0 & H1 & H2);
      try (intros H; inv_pair; lia).
    destruct (H2 rc' at_total eq_refl) as [H3 H4].
    destruct (at_total || (max_results <=? rc'));
      [intros H; inv_pair; lia|].
    intros H. apply IH in H. lia.
Qed.
End YelpBound.

(** X1.  The Indeed generator yields at most [max_results] records and
    ends within [max_results] turns of its loop. *)
Lemma indeed_search_all_bounded env fuel self query location max_results :
  0 <= max_results ->
  Z.of_nat (List.length
              (output (snd (Indeed.search_all env fuel self query location
                              max_results)))) <= max_results
  /\ (max_results <= Z.of_nat fuel ->
      fst (Indeed.search_all env fuel self query location max_results)
      <> Running).
Proof.
  intros Hmax. unfold Indeed.search_all, output. rewrite length_rev. split.
  - destruct (Indeed.search_all_from env fuel self query location
                max_results 0 0 start) as [e w'] eqn:E.
    apply indeed_search_all_count in E. unfold count in E. simpl in E |- *.
    lia.
  - intros Hfuel. apply indeed_search_all_ends. lia.
Qed.

(** X2.  The Yelp generator yields at most [max_results] records and
    ends within [max_results] turns of its loop. *)
Lemma yelp_search_all_bounded env fuel self term location max_results :
  0 <= max_results ->
  Z.of_nat (List.length
              (output (snd (Yelp.search_all env fuel self term location
                              max_results)))) <= max_results
  /\ (max_results <= Z.of_nat fuel ->
      fst (Yelp.search_all env fuel self term location max_results)
      <> Running).
Proof.
  intros Hmax. unfold Yelp.search_all, output. rewrite length_rev. split.
  - destruct (Yelp.search_all_from env fuel self term location
                max_results 0 0 start) as [e w'] eqn:E.
    apply yelp_search_all_count in E. unfold count in E. simpl in E |- *.
    lia.
  - intros Hfuel. apply yelp_search_all_ends. lia.
Qed.

(** X5.  When a batch is empty, the Indeed generator ends at once,
    whatever the batch says about a further page. *)
Lemma indeed_empty_batch_ends env fuel self query location max_results
    results_count page w response_data w1 jobs has_next_page :
  results_count < max_results ->
  Indeed.search env self query location page
    (Z.min 10 (max_results - results_count)) w = (Ok response_data, w1) ->
  Indeed.read_batch response_data (Z.min 10 (max_results - results_count))
  = Ok (jobs, has_next_page) ->
  truthy jobs = false ->
  Indeed.search_all_from env (S fuel) self query location max_results
    results_count page w = (Finished, w1).
Proof.
  intros Hlt Hs Hr Hj. simpl. unfold Indeed.page_size.
  replace (results_count <? max_results) with true
    by (symmetry; apply Z.ltb_lt; lia).
  replace (Z.min 10 (max_results - results_count) <=? 0) with false
    by (symmetry; apply Z.leb_gt; lia).
  unfold Indeed.batch, bind at 1. rewrite Hs.
  unfold bind at 1, lift. rewrite Hr. simpl. rewrite Hj. reflexivity.
Qed.

(** X6.  When a batch is empty, the Yelp generator ends at once,
    whatever total the batch reports. *)
Lemma yelp_empty_batch_ends env fuel self term location max_results
    results_count offset w businesses total w1 :
  results_count < max_results ->
  Yelp.fetch env self term location offset
    (Z.min 10 (max_results - results_count)) w
  = (Ok (businesses, total), w1) ->
  truthy businesses = false ->
  Yelp.search_all_from env (S fuel) self term location max_results
    results_count offset w = (Finished, w1).
Proof.
  intros Hlt Hf Hb. simpl. unfold Yelp.page_size.
  replace (results_count <? max_results) with true
    by (symmetry; apply Z.ltb_lt; lia).
  replace (Z.min 10 (max_results - results_count) <=? 0) with false
    by (symmetry; apply Z.leb_gt; lia).
  unfold Yelp.batch, bind at 1. rewrite Hf. simpl. rewrite Hb. reflexivity.
Qed.



(** * Further properties of the clients *)

(** ** Bounds of the generators *)

(** Asked for fifteen jobs, with fifteen turns of fuel, against a site
    that serves as many jobs as asked for. *)
Lemma indeed_search_all_bounded_witness :
  Z.of_nat (List.length
              (output (snd (Indeed.search_all
                              (Scenario.indeed_env Scenario.pages_as_requested)
                              15 Scenario.indeed_session
                              "engineer" "Austin, TX" 15)))) <= 15
  /\ fst (Indeed.search_all
            (Scenario.indeed_env Scenario.pages_as_requested)
            15 Scenario.indeed_session "engineer" "Austin, TX" 15)
     <> Running.
Proof.
  destruct (indeed_search_all_bounded
              (Scenario.indeed_env Scenario.pages_as_requested)
              15 Scenario.indeed_session "engineer" "Austin, TX" 15)
    as [Hcount Hend]; [lia|].
  split; [exact Hcount|apply Hend; lia].
Defined.

(** Asked for twenty-five businesses against a site that serves fifteen
    a page. *)
Lemma yelp_search_all_bounded_witness :
  Z.of_nat (List.length
              (output (snd (Yelp.search_all
                              (Scenario.yelp_env Scenario.fifteen_a_page)
                              25 Scenario.yelp_anonymous
                              "cafe" "Austin, TX" 25)))) <= 25
  /\ fst (Yelp.search_all (Scenario.yelp_env Scenario.fifteen_a_page)
            25 Scenario.yelp_anonymous "cafe" "Austin, TX" 25)
     <> Running.
Proof.
  destruct (yelp_search_all_bounded
              (Scenario.yelp_env Scenario.fifteen_a_page)
              25 Scenario.yelp_anonymous "cafe" "Austin, TX" 25)
    as [Hcount Hend]; [lia|].
  split; [exact Hcount|apply Hend; lia].
Defined.

Section TwitterBound.
Variable net : network.

Lemma twitter_yield_tweets_count entries :
  forall results_count w r w',
    Twitter.yield_tweets entries results_count w = (r, w') ->
    count w <= count w'
    /\ forall results_count', r = Ok results_count' ->
         results_count' = results_count + (count w' - count w).
Proof.
  unfold count.
  induction entries as [|entry rest IH]; simpl; intros rc w r w'.
  - unfold ret. intros H. inv_pair. split; [lia|].
    intros rc' H. inversion H. lia.
  - unfold bind at 1, lift.
    destruct (Twitter.entry_tweet entry) as [[tweet_data|]|e];
      [| |intros H; inv_pair; split; [lia|discriminate]].
    + unfold bind at 1, lift.
      destruct (Twitter.extract_tweet_data tweet_data) as [record|e];
        [|intros H; inv_pair; split; [lia|discriminate]].
      unfold bind at 1, yield.
      intros H. apply IH in H. cbn [yielded List.length] in H.
      rewrite Nat2Z.inj_succ in H. destruct H as [H1 H2].
      split; [lia|]. intros rc' Hr. specialize (H2 rc' Hr). lia.
    + apply IH.
Qed.

Lemma twitter_batch_count query batch_size results_count cursor w r w' :
  Twitter.batch net query batch_size results_count cursor w = (r, w') ->
  count w <= count w'
  /\ forall results_count' cursor', r = Ok (results_count', cursor') ->
       results_count' = results_count + (count w' - count w).
Proof.
  unfold Twitter.batch, bind at 1.
  destruct (Twitter.search net query batch_size cursor w)
    as [[response_data|e] w1] eqn:E;
    apply twitter_search_world in E; destruct E as [E _]; unfold count;
    [|intros H; inv_pair; rewrite E; split; [lia|discriminate]].
  repeat (unfold bind at 1, lift;
          match goal with
          | |- context [match ?x with Ok _ => _ | Raise _ => _ end] =>
              destruct x;
              [|intros H; inv_pair; rewrite E; split; [lia|discriminate]]
          end).
  unfold bind, ret.
  match goal with
  | |- context [Twitter.yield_tweets ?l ?rc ?w0] =>
      destruct (Twitter.yield_tweets l rc w0) as [[rc'|e] w2] eqn:Ey;
      apply twitter_yield_tweets_count in Ey; unfold count in Ey;
      rewrite E in Ey; destruct Ey as [H1 H2]
  end; intros H; inv_pair.
  - split; [lia|]. intros rc'' c' Hr. inversion Hr. subst.
    apply (H2 _ eq_refl).
  - split; [lia|discriminate].
Qed.

End TwitterBound.

(** X7.  While no batch holds more tweets than the search asked for, the
    Twitter generator yields no more than the records still asked for. *)
Theorem twitter_search_all_bounded_when_batches_comply
    (net : network) (query : string) (max_results : Z) :
  (forall batch_size results_count cursor w r w',
     0 < batch_size ->
     Twitter.batch net query batch_size results_count cursor w = (r, w') ->
     count w' - count w <= batch_size) ->
  forall fuel results_count cursor w,
    count (snd (Twitter.search_all_from net fuel query max_results
                  results_count cursor w)) - count w
    <= Z.max 0 (max_results - results_count).
Proof.
  intros Hcomply.
  induction fuel as [|fuel IH]; intros rc cursor w; simpl;
    destruct (Z.ltb_spec rc max_results) as [Hlt|Hge];
    try (simpl; lia).
  - destruct (_ <=? 0); simpl; lia.
  - destruct (Z.leb_spec (Z.min 20 (max_results - rc)) 0) as [Hle|Hpos];
      [simpl; lia|].
    destruct (Twitter.batch net query (Z.min 20 (max_results - rc)) rc
                cursor w) as [[[rc' cursor']|e] w1] eqn:E.
    + pose proof (Hcomply _ _ _ _ _ _ Hpos E) as Hsize.
      apply twitter_batch_count in E. destruct E as [H1 H2].
      specialize (H2 _ _ eq_refl).
      destruct (negb (truthy cursor') || (max_results <=? rc'));
        [simpl; lia|].
      specialize (IH rc' cursor' w1). lia.
    + pose proof (Hcomply _ _ _ _ _ _ Hpos E) as Hsize.
      apply twitter_batch_count in E. simpl. lia.
Qed.

(** Against a site whose every batch holds one tweet and a cursor, asked
    for three tweets. *)
Lemma twitter_search_all_bounded_when_batches_comply_witness :
  count (snd (Twitter.search_all_from Cases.tweet_and_cursor 5 "rocq" 3
                0 JNull start)) - count start <= Z.max 0 (3 - 0).
Proof.
  apply (twitter_search_all_bounded_when_batches_comply
           Cases.tweet_and_cursor "rocq" 3).
  intros batch_size results_count cursor w r w' Hpos H.
  unfold Twitter.batch, Twitter.search in H. unfold_m. simpl in H.
  inversion H. unfold count. cbn [yielded List.length].
  rewrite Nat2Z.inj_succ. lia.
Defined.

(** X8.  While every batch holds a cursor and no tweet, the Twitter generator
    does not end: whatever the number of turns, it is still running. *)
Theorem twitter_search_all_runs_on_cursors
    (net : network) (query : string) (max_results : Z) :
  0 < max_results ->
  (forall batch_size cursor w,
     exists cursor' w',
       Twitter.batch net query batch_size 0 cursor w
       = (Ok (0, cursor'), w')
       /\ truthy cursor' = true) ->
  forall fuel cursor w,
    fst (Twitter.search_all_from net fuel query max_results 0 cursor w)
    = Running.
Proof.
  intros Hmax Hbatch.
  assert ((0 <? max_results) = true) as Hlt by (apply Z.ltb_lt; lia).
  assert ((Z.min 20 (max_results - 0) <=? 0) = false) as Hpos
      by (apply Z.leb_gt; lia).
  assert ((max_results <=? 0) = false) as Hle by (apply Z.leb_gt; lia).
  induction fuel as [|fuel IH]; intros cursor w; simpl; rewrite Hlt, Hpos.
  - reflexivity.
  - destruct (Hbatch (Z.min 20 (max_results - 0)) cursor w)
      as (cursor' & w' & -> & Ht).
    rewrite Ht, Hle. simpl. apply IH.
Qed.

Lemma twitter_search_all_runs_on_cursors_witness :
  fst (Twitter.search_all_from Scenario.cursor_only 7 "rocq" 3 0 JNull start)
  = Running.
Proof.
  apply (twitter_search_all_runs_on_cursors Scenario.cursor_only "rocq" 3).
  - lia.
  - intros batch_size cursor w. eexists. eexists. split; reflexivity.
Defined.



(** ** Empty batches *)

(** The GraphQL answer of the first page holds no job and the token of a
    next page: the Indeed generator ends after the two calls of that
    page. *)
Lemma indeed_empty_batch_ends_witness :
  Indeed.search_all_from (Cases.indeed_mosaic_env Cases.graphql_without_jobs)
    1 Cases.indeed_token_session "engineer" "Austin, TX" 15 0 0 start
  = (Finished,
     snd (Indeed.search (Cases.indeed_mosaic_env Cases.graphql_without_jobs)
            Cases.indeed_token_session "engineer" "Austin, TX" 0 10 start)).
Proof.
  apply (indeed_empty_batch_ends
           (Cases.indeed_mosaic_env Cases.graphql_without_jobs) 0
           Cases.indeed_token_session "engineer" "Austin, TX" 15 0 0 start
           Cases.no_jobs_next_page _ (JList []) true).
  - lia.
  - reflexivity.
  - reflexivity.
  - reflexivity.
Defined.

(** The GraphQL answer of the first page holds no business and a total
    of a hundred: the Yelp generator ends after that call. *)
Lemma yelp_empty_batch_ends_witness :
  Yelp.search_all_from (Scenario.yelp_env Cases.graphql_without_business)
    1 Scenario.yelp_session "cafe" "Austin, TX" 25 0 0 start
  = (Finished,
     snd (Yelp.fetch (Scenario.yelp_env Cases.graphql_without_business)
            Scenario.yelp_session "cafe" "Austin, TX" 0 10 start)).
Proof.
  apply (yelp_empty_batch_ends
           (Scenario.yelp_env Cases.graphql_without_business) 0
           Scenario.yelp_session "cafe" "Austin, TX" 25 0 0 start
           (JList []) (JNum 100)).
  - lia.
  - reflexivity.
  - reflexivity.
Defined.

(** ** The paths of the Yelp driver *)

Section YelpPaths.
Variable env : Yelp.environment.
Variable self : Yelp.client.
Variables term location : string.

Lemma yelp_yield_businesses_exact businesses max_results :
  forall results_count w,
    results_count < max_results ->
    exists w',
      Yelp.yield_businesses businesses max_results results_count w
      = (Ok (results_count
             + Z.min (Z.of_nat (List.length businesses))
                 (max_results - results_count)), w')
      /\ calls w' = calls w
      /\ count w' - count w
         = Z.min (Z.of_nat (List.length businesses))
             (max_results - results_count).
Proof.
  unfold count.
  induction businesses as [|business rest IH]; intros rc w Hlt.
  - exists w. simpl. unfold ret.
    replace (rc + Z.min 0 (max_results - rc)) with rc by lia.
    repeat split; lia.
  - cbn [Yelp.yield_businesses List.length]. unfold bind at 1, yield.
    rewrite Nat2Z.inj_succ.
    destruct (Z.leb_spec max_results (rc + 1)) as [Hge|Hnext].
    + exists (World (calls w) (business :: yielded w)). unfold ret.
      replace (rc + Z.min (Z.succ (Z.of_nat (List.length rest)))
                      (max_results - rc)) with (rc + 1) by lia.
      split; [reflexivity|split; [reflexivity|]].
      cbn [yielded List.length]. rewrite Nat2Z.inj_succ. lia.
    + destruct (IH (rc + 1)
                  (World (calls w) (business :: yielded w)))
        as (w' & E & Hc & Hn); [lia|].
      exists w'. rewrite E.
      replace (rc + 1 + Z.min (Z.of_nat (List.length rest))
                          (max_results - (rc + 1)))
        with (rc + Z.min (Z.succ (Z.of_nat (List.length rest)))
                     (max_results - rc)) by lia.
      split; [reflexivity|split; [exact Hc|]].
      cbn [yielded List.length] in Hn. rewrite Nat2Z.inj_succ in Hn. lia.
Qed.

Lemma yelp_fetch_without_token offset batch_size w :
  truthy (Yelp.opt_str (Yelp.csrf_token self)) = false ->
  Yelp.fetch env self term location offset batch_size w
  = Yelp.page_batch env self term location offset batch_size w.
Proof.
  intros Htok.
  apply (yelp_fetch_after_failure env self term location offset batch_size
           w (Exception "CSRF token not available") w).
  unfold Yelp.search_graphql. rewrite Htok. reflexivity.
Qed.

Lemma yelp_batch_calls_without_token offset batch_size max_results
    results_count w r w' :
  truthy (Yelp.opt_str (Yelp.csrf_token self)) = false ->
  Yelp.batch env self term location offset batch_size max_results
    results_count w = (r, w') ->
  calls w' = Yelp.page_request term location offset :: calls w.
Proof.
  intros Htok. unfold Yelp.batch, bind at 1.
  rewrite (yelp_fetch_without_token _ _ _ Htok).
  destruct (Yelp.page_batch env self term location offset batch_size w)
    as [[fetched|e] w1] eqn:E; apply yelp_page_batch_calls in E;
    [|intros H; inv_pair; exact E].
  destruct (negb _); [unfold ret; intros H; inv_pair; exact E|].
  unfold bind at 1, lift.
  destruct (iter (fst fetched)) as [l|e1]; [|intros H; inv_pair; exact E].
  unfold bind at 1.
  destruct (Yelp.yield_businesses l max_results results_count w1)
    as [[rc|e2] w2] eqn:Ey; apply yelp_yield_calls in Ey.
  - unfold bind, lift, ret.
    destruct (int_ge rc (snd fetched)); intros H; inv_pair;
      rewrite Ey; exact E.
  - intros H. inv_pair. rewrite Ey. exact E.
Qed.

End YelpPaths.

(** X12.  Without CSRF token, every call of a Yelp run is the GET of a results
    page: no GraphQL POST is sent, and a turn sends one request. *)
Theorem yelp_without_token_sends_page_requests
    (env : Yelp.environment) (self : Yelp.client) (term location : string)
    (max_results : Z) :
  truthy (Yelp.opt_str (Yelp.csrf_token self)) = false ->
  forall fuel results_count offset w,
    exists sent,
      calls (snd (Yelp.search_all_from env fuel self term location
                    max_results results_count offset w))
      = (sent ++ calls w)%list
      /\ Forall (fun r => exists o, r = Yelp.page_request term location o)
           sent
      /\ (List.length sent <= fuel)%nat.
Proof.
  intros Htok.
  induction fuel as [|fuel IH]; intros rc offset w; simpl;
    destruct (rc <? max_results);
    try (exists []; repeat split; [constructor|simpl; lia]).
  - destruct (_ <=? 0); exists []; repeat split; constructor.
  - destruct (_ <=? 0);
      [exists []; repeat split; [constructor|simpl; lia]|].
    destruct (Yelp.batch env self term location offset
                (Z.min Yelp.page_size (max_results - rc)) max_results rc w)
      as [r w1] eqn:E.
    apply yelp_batch_calls_without_token in E; [|exact Htok].
    assert (Forall (fun r => exists o, r = Yelp.page_request term location o)
              [Yelp.page_request term location offset]) as Hone
      by (constructor; [eexists; reflexivity|constructor]).
    destruct r as [[[rc' at_total]|]|e];
      try (exists [Yelp.page_request term location offset];
           simpl; rewrite E; repeat split; [exact Hone|lia]).
    destruct (at_total || (max_results <=? rc'));
      [exists [Yelp.page_request term location offset];
       simpl; rewrite E; repeat split; [exact Hone|lia]|].
    destruct (IH rc' (offset + Z.min Yelp.page_size (max_results - rc)) w1)
      as (sent & Es & Hs & Hl).
    exists (sent ++ [Yelp.page_request term location offset])%list.
    rewrite Es, E. split; [|split].
    + rewrite <- app_assoc. reflexivity.
    + apply Forall_app. split; [exact Hs|exact Hone].
    + rewrite length_app. simpl. lia.
Qed.

Lemma yelp_without_token_sends_page_requests_witness :
  exists sent,
    calls (snd (Yelp.search_all_from
                  (Scenario.yelp_env Scenario.fifteen_a_page) 2
                  Scenario.yelp_anonymous "cafe" "Austin, TX" 25 0 0 start))
    = (sent ++ calls start)%list
    /\ Forall (fun r => exists o,
                 r = Yelp.page_request "cafe" "Austin, TX" o) sent
    /\ (List.length sent <= 2)%nat.
Proof.
  apply (yelp_without_token_sends_page_requests
           (Scenario.yelp_env Scenario.fifteen_a_page)
           Scenario.yelp_anonymous "cafe" "Austin, TX" 25).
  reflexivity.
Defined.

(** X13.  When a results page carries no usable initial state, [search] parses
    the markup and reports as total the number of businesses it parsed;
    the driver, without token, then ends after this page, however many
    records are still asked for: it yields the parsed businesses, up to
    the maximum, and sends no further request. *)
Theorem yelp_html_path_ends_after_one_page
    (env : Yelp.environment) (self : Yelp.client) (term location : string)
    (fuel : nat) (max_results results_count offset : Z) (w : world)
    (resp : response) :
  truthy (Yelp.opt_str (Yelp.csrf_token self)) = false ->
  Yelp.env_net env (List.length (calls w))
    (Yelp.page_request term location offset) = Ok resp ->
  status_code resp = 200 ->
  (let initial_data :=
     Yelp.scan_initial_state env
       (Yelp.script_tags (Yelp.env_BeautifulSoup env (text resp))) in
   if truthy initial_data then contains "searchPageProps" initial_data
   else Ok false) = Ok false ->
  0 <= results_count < max_results ->
  exists w',
    Yelp.search_all_from env (S fuel) self term location max_results
      results_count offset w = (Finished, w')
    /\ calls w' = Yelp.page_request term location offset :: calls w
    /\ count w' - count w
       = Z.min (Z.of_nat
                  (List.length
                     (Yelp.parse_cards env
                        (Yelp.business_cards
                           (Yelp.env_BeautifulSoup env (text resp))))))
           (max_results - results_count).
Proof.
  intros Htok Hnet Hstatus Hinit Hrc. cbv zeta in Hinit.
  set (businesses := Yelp.parse_cards env _).
  assert (Yelp.fetch env self term location offset
            (Z.min 10 (max_results - results_count)) w
          = (Ok (JList businesses,
                 JNum (Z.of_nat (List.length businesses))),
             World (Yelp.page_request term location offset :: calls w)
               (yielded w))) as Hfetch.
  { rewrite (yelp_fetch_without_token _ _ _ _ _ _ _ Htok).
    unfold Yelp.page_batch, Yelp.search. unfold_m. simpl.
    rewrite Hnet, Hstatus. simpl. rewrite Hinit. reflexivity. }
  simpl. unfold Yelp.page_size.
  replace (results_count <? max_results) with true
    by (symmetry; apply Z.ltb_lt; lia).
  replace (Z.min 10 (max_results - results_count) <=? 0) with false
    by (symmetry; apply Z.leb_gt; lia).
  unfold Yelp.batch, bind at 1. rewrite Hfetch. cbn [fst snd].
  destruct businesses as [|business rest] eqn:Eb.
  - simpl. eexists. split; [reflexivity|]. split; [reflexivity|].
    unfold count. simpl. lia.
  - cbn [truthy negb]. unfold bind at 1, lift. cbn [iter].
    unfold bind at 1.
    destruct (yelp_yield_businesses_exact (business :: rest) max_results
                results_count
                (World (Yelp.page_request term location offset :: calls w)
                   (yielded w)))
      as (w' & E & Hc & Hn); [lia|].
    rewrite E. unfold bind, lift, ret. cbn [int_ge].
    exists w'. split; [|split; [exact Hc|exact Hn]].
    match goal with
    | |- (if ?a || ?b then _ else _) = _ =>
        replace (a || b) with true; [reflexivity|]
    end.
    symmetry. apply orb_true_iff.
    destruct (Z.le_ge_cases (Z.of_nat (List.length (business :: rest)))
                (max_results - results_count)).
    + left. apply Z.leb_le. lia.
    + right. apply Z.leb_le. lia.
Qed.

(** Asked for twenty-five businesses against a site whose pages hold
    three business cards and no initial state. *)
Lemma yelp_html_path_ends_after_one_page_witness :
  exists w',
    Yelp.search_all_from (Cases.yelp_html_env Cases.same_page) 1
      Scenario.yelp_anonymous "cafe" "Austin, TX" 25 0 0 start
    = (Finished, w')
    /\ calls w' = Yelp.page_request "cafe" "Austin, TX" 0 :: calls start
    /\ count w' - count start = Z.min 3 (25 - 0).
Proof.
  apply (yelp_html_path_ends_after_one_page
           (Cases.yelp_html_env Cases.same_page) Scenario.yelp_anonymous
           "cafe" "Austin, TX" 0 25 0 0 start
           (Response 200 ""
              (Raise (PyExc "JSONDecodeError" "Expecting value")))).
  - reflexivity.
  - reflexivity.
  - reflexivity.
  - reflexivity.
  - lia.
Defined.

(** X14.  With a token, when the GraphQL POST fails and the page search then
    returns, [search_graphql] returns the page-shaped result; the driver
    reads it with the GraphQL keys, finds no business, and the run ends
    there with nothing yielded from that page. *)
Theorem yelp_failed_post_ends_the_run
    (env : Yelp.environment) (self : Yelp.client) (term location : string)
    (fuel : nat) (max_results results_count offset : Z)
    (w w1 w2 : world) (e1 : pyexc) (response_data : json) :
  truthy (Yelp.opt_str (Yelp.csrf_token self)) = true ->
  results_count < max_results ->
  Yelp.post_graphql env self term location offset
    (Z.min 10 (max_results - results_count)) w = (Raise e1, w1) ->
  Yelp.search env self term location offset
    (Z.min 10 (max_results - results_count)) w1 = (Ok response_data, w2) ->
  Yelp.search_all_from env (S fuel) self term location max_results
    results_count offset w = (Finished, w2)
  /\ yielded w2 = yielded w.
Proof.
  intros Htok Hlt Hpost Hsearch.
  assert (Yelp.search_graphql env self term location offset
            (Z.min 10 (max_results - results_count)) w
          = (Ok response_data, w2)) as Hg.
  { unfold Yelp.search_graphql. rewrite Htok.
    unfold bind at 1, implement_rate_limiting, ret, try_except.
    rewrite Hpost. exact Hsearch. }
  split; [|apply (yelp_search_graphql_world _ _ _ _ _ _ _ _ _ Hg)].
  destruct (yelp_search_shape _ _ _ _ _ _ _ _ _ Hsearch)
    as (businesses & total & region & ->).
  simpl. unfold Yelp.page_size.
  replace (results_count <? max_results) with true
    by (symmetry; apply Z.ltb_lt; lia).
  replace (Z.min 10 (max_results - results_count) <=? 0) with false
    by (symmetry; apply Z.leb_gt; lia).
  unfold Yelp.batch, bind at 1, Yelp.fetch, try_except,
    Yelp.structured_batch, bind at 1.
  rewrite Hg. reflexivity.
Qed.

(** With a token, against a site that rejects the POST and serves
    fifteen businesses a page: none of them is yielded. *)
Lemma yelp_failed_post_ends_the_run_witness :
  exists w2,
    Yelp.search_all_from (Scenario.yelp_env Scenario.fifteen_a_page) 1
      Scenario.yelp_session "cafe" "Austin, TX" 25 0 0 start
    = (Finished, w2)
    /\ yielded w2 = yielded start.
Proof.
  eexists.
  eapply (yelp_failed_post_ends_the_run
           (Scenario.yelp_env Scenario.fifteen_a_page)
           Scenario.yelp_session "cafe" "Austin, TX" 0 25 0 0 start).
  - reflexivity.
  - lia.
  - reflexivity.
  - reflexivity.
Defined.

(** ** The paths of the Indeed client *)

(** X17.  When the session has no GraphQL token and the results page carries a
    mosaic id, [search] does not parse the page: after its one GET it
    raises, and a generator that asks for this page fails with the same
    exception, nothing yielded. *)
Theorem indeed_search_needs_token_for_mosaic_page
    (env : Indeed.environment) (self : Indeed.client)
    (query location : string) (page limit : Z) (w : world)
    (resp : response) (mosaic_id : string) :
  truthy (Indeed.opt_str (Indeed.indeed_csrf_token self)) = false ->
  Indeed.env_net env (List.length (calls w))
    (Cases.indeed_page_request query location page limit) = Ok resp ->
  status_code resp = 200 ->
  Cases.mosaic_id_of (Indeed.env_BeautifulSoup env (text resp))
  = Some mosaic_id ->
  mosaic_id <> "" ->
  let failure := PyExc "Exception" "GraphQL CSRF token not available" in
  let after := World (Cases.indeed_page_request query location page limit
                        :: calls w) (yielded w) in
  Indeed.search env self query location page limit w = (Raise failure, after)
  /\ forall fuel max_results results_count,
       results_count < max_results ->
       limit = Z.min 10 (max_results - results_count) ->
       Indeed.search_all_from env (S fuel) self query location max_results
         results_count page w = (Failed failure, after).
Proof.
  intros Htok Hnet Hstatus Hmosaic Hid failure after.
  assert (Indeed.search env self query location page limit w
          = (Raise failure, after)) as Hsearch.
  { unfold Indeed.search. unfold_m. simpl.
    unfold Cases.indeed_page_request in Hnet. rewrite Hnet, Hstatus. simpl.
    unfold Cases.mosaic_id_of in Hmosaic. rewrite Hmosaic. simpl.
    destruct (String.eqb_spec mosaic_id ""); [contradiction|]. simpl.
    unfold Indeed._search_graphql. rewrite Htok. reflexivity. }
  split; [exact Hsearch|].
  intros fuel max_results results_count Hlt ->. simpl.
  unfold Indeed.page_size.
  replace (results_count <? max_results) with true
    by (symmetry; apply Z.ltb_lt; lia).
  replace (Z.min 10 (max_results - results_count) <=? 0) with false
    by (symmetry; apply Z.leb_gt; lia).
  rewrite (indeed_batch_first _ _ _ _ _ _ _ _ _ _ _ Hsearch). reflexivity.
Qed.

Lemma indeed_search_needs_token_for_mosaic_page_witness :
  Indeed.search (Cases.indeed_mosaic_env Cases.mosaic_pages)
    Scenario.indeed_session "engineer" "Austin, TX" 0 10 start
  = (Raise (PyExc "Exception" "GraphQL CSRF token not available"),
     World [Cases.indeed_page_request "engineer" "Austin, TX" 0 10] []).
Proof.
  apply (indeed_search_needs_token_for_mosaic_page
           (Cases.indeed_mosaic_env Cases.mosaic_pages)
           Scenario.indeed_session "engineer" "Austin, TX" 0 10 start
           (Response 200 ""
              (Raise (PyExc "JSONDecodeError" "Expecting value")))
           "mosaic-provider-jobcards").
  - reflexivity.
  - reflexivity.
  - reflexivity.
  - reflexivity.
  - discriminate.
Defined.

Section IndeedHtml.
Variable env : Indeed.environment.

Lemma indeed_yield_parsed_cards cards max_results :
  forall results_count w,
    results_count + Z.of_nat (List.length cards) < max_results ->
    Indeed.yield_jobs env (map Indeed.parse_card cards) max_results
      results_count w
    = (Ok (results_count + Z.of_nat (List.length cards)),
       World (calls w) (rev (map Indeed.parse_card cards) ++ yielded w)%list).
Proof.
  induction cards as [|card rest IH]; intros rc w Hlt.
  - simpl. unfold ret. destruct w. simpl. f_equal. f_equal. lia.
  - cbn [map List.length Indeed.yield_jobs] in *.
    rewrite Nat2Z.inj_succ in Hlt.
    unfold bind at 1, lift.
    change (contains "job" (Indeed.parse_card card)) with (@Ok bool false).
    cbv iota. unfold bind at 1, lift. unfold bind at 1, yield.
    replace (max_results <=? rc + 1) with false
      by (symmetry; apply Z.leb_gt; lia).
    rewrite IH by (cbn [calls yielded]; lia).
    cbn [calls yielded rev]. rewrite <- app_assoc.
    rewrite Nat2Z.inj_succ. f_equal. f_equal. lia.
Qed.

End IndeedHtml.

(** X18.  On the markup path of Indeed (no mosaic id on the results page), a
    page that holds fewer job cards than the batch asked for ends the
    run: its cards are yielded, in page order, and no further request is
    sent. *)
Theorem indeed_html_short_page_ends
    (env : Indeed.environment) (self : Indeed.client)
    (query location : string) (fuel : nat)
    (max_results results_count page : Z) (w : world) (resp : response) :
  Indeed.env_net env (List.length (calls w))
    (Cases.indeed_page_request query location page
       (Z.min 10 (max_results - results_count))) = Ok resp ->
  status_code resp = 200 ->
  truthy (Indeed.opt_str
            (Cases.mosaic_id_of (Indeed.env_BeautifulSoup env (text resp))))
  = false ->
  Z.of_nat (List.length
              (Indeed.job_cards (Indeed.env_BeautifulSoup env (text resp))))
  < Z.min 10 (max_results - results_count) ->
  Indeed.search_all_from env (S fuel) self query location max_results
    results_count page w
  = (Finished,
     World (Cases.indeed_page_request query location page
              (Z.min 10 (max_results - results_count)) :: calls w)
       (rev (map Indeed.parse_card
               (Indeed.job_cards (Indeed.env_BeautifulSoup env (text resp))))
          ++ yielded w)%list).
Proof.
  intros Hnet Hstatus Hmosaic Hshort.
  set (cards := Indeed.job_cards _) in *.
  set (batch_size := Z.min 10 (max_results - results_count)) in *.
  assert (0 < batch_size) as Hpos by lia.
  assert (Indeed.search env self query location page batch_size w
          = (Ok (Indeed._parse_html_results
                   (Indeed.env_BeautifulSoup env (text resp))),
             World (Cases.indeed_page_request query location page batch_size
                      :: calls w) (yielded w))) as Hsearch.
  { unfold Indeed.search. unfold_m. simpl.
    unfold Cases.indeed_page_request in Hnet. rewrite Hnet, Hstatus. simpl.
    unfold Cases.mosaic_id_of in Hmosaic. rewrite Hmosaic. reflexivity. }
  simpl. unfold Indeed.page_size. fold batch_size.
  replace (results_count <? max_results) with true
    by (symmetry; apply Z.ltb_lt; lia).
  replace (batch_size <=? 0) with false by (symmetry; apply Z.leb_gt; lia).
  unfold Indeed.batch, bind at 1. rewrite Hsearch.
  unfold bind at 1, lift, Indeed._parse_html_results. fold cards.
  cbn [Indeed.read_batch contains rbind lookup String.eqb Ascii.eqb
         Bool.eqb get_or len fst snd].
  rewrite length_map.
  replace (batch_size <=? Z.of_nat (List.length cards)) with false
    by (symmetry; apply Z.leb_gt; lia).
  destruct cards as [|card rest] eqn:Ec.
  - reflexivity.
  - cbn [map truthy negb]. unfold bind at 1, lift. cbn [iter].
    unfold bind, ret.
    change (Indeed.parse_card card :: map Indeed.parse_card rest)
      with (map Indeed.parse_card (card :: rest)).
    rewrite indeed_yield_parsed_cards
      by (cbn [calls yielded]; subst batch_size; lia).
    reflexivity.
Qed.

(** Asked for fifteen jobs, the first page holds two cards. *)
Lemma indeed_html_short_page_ends_witness :
  Indeed.search_all_from
    (Indeed.Environment Cases.mosaic_pages
       (fun _ => Indeed.Soup None [] None
                   [Scenario.full_card; Scenario.bare_card])
       (fun _ => None) (fun _ => ""))
    1 Scenario.indeed_session "engineer" "Austin, TX" 15 0 0 start
  = (Finished,
     World [Cases.indeed_page_request "engineer" "Austin, TX" 0 10]
       [Indeed.parse_card Scenario.bare_card;
        Indeed.parse_card Scenario.full_card]).
Proof.
  apply (indeed_html_short_page_ends
           (Indeed.Environment Cases.mosaic_pages
              (fun _ => Indeed.Soup None [] None
                          [Scenario.full_card; Scenario.bare_card])
              (fun _ => None) (fun _ => ""))
           Scenario.indeed_session "engineer" "Austin, TX" 0 15 0 0 start
           (Response 200 ""
              (Raise (PyExc "JSONDecodeError" "Expecting value")))).
  - reflexivity.
  - reflexivity.
  - reflexivity.
  - simpl. lia.
Defined.

(** ** The requests and the responses of the Twitter client *)

Section TwitterRequests.
Variable net : network.

Lemma twitter_yield_tweets_calls entries :
  forall results_count w r w',
    Twitter.yield_tweets entries results_count w = (r, w') ->
    calls w' = calls w.
Proof.
  induction entries as [|entry rest IH]; simpl; intros rc w r w'.
  - unfold ret. intros H. inv_pair. reflexivity.
  - unfold bind at 1, lift.
    destruct (Twitter.entry_tweet entry) as [[tweet_data|]|e];
      [| |intros H; inv_pair; reflexivity].
    + unfold bind at 1, lift.
      destruct (Twitter.extract_tweet_data tweet_data) as [record|e];
        [|intros H; inv_pair; reflexivity].
      unfold bind at 1, yield. intros H. apply IH in H. exact H.
    + apply IH.
Qed.

Lemma twitter_batch_calls query batch_size results_count cursor w r w' :
  Twitter.batch net query batch_size results_count cursor w = (r, w') ->
  exists request,
    calls w' = request :: calls w
    /\ req_method request = GET
    /\ Cases.requested_count request = Some (JNum batch_size).
Proof.
  unfold Twitter.batch, bind at 1.
  destruct (Twitter.search net query batch_size cursor w)
    as [[response_data|e] w1] eqn:E.
  2: { intros H. inv_pair. revert E. unfold Twitter.search. unfold_m. simpl.
       destruct (net _ _) as [resp|e1];
         [destruct (status_code resp =? 200)|];
         intros E; inv_pair; eexists; repeat split. }
  assert (exists request,
            calls w1 = request :: calls w /\ req_method request = GET
            /\ Cases.requested_count request = Some (JNum batch_size))
    as Hcall.
  { revert E. unfold Twitter.search. unfold_m. simpl.
    destruct (net _ _) as [resp|e1];
      [destruct (status_code resp =? 200)|];
      intros E; inv_pair; eexists; repeat split. }
  repeat (unfold bind at 1, lift;
          match goal with
          | |- context [match ?x with Ok _ => _ | Raise _ => _ end] =>
              destruct x; [|intros H; inv_pair; exact Hcall]
          end).
  unfold bind, ret.
  match goal with
  | |- context [Twitter.yield_tweets ?l ?rc ?w0] =>
      destruct (Twitter.yield_tweets l rc w0) as [[rc'|e] w2] eqn:Ey;
      apply twitter_yield_tweets_calls in Ey
  end; intros H; inv_pair; rewrite Ey; exact Hcall.
Qed.

End TwitterRequests.

(** X9.  Every request of a Twitter run is a GET that asks for at least one
    and at most twenty tweets, and a turn sends one request. *)
Theorem twitter_requests_ask_for_1_to_20
    (net : network) (query : string) (max_results : Z) :
  forall fuel results_count cursor w,
    exists sent,
      calls (snd (Twitter.search_all_from net fuel query max_results
                    results_count cursor w))
      = (sent ++ calls w)%list
      /\ Forall (fun r => req_method r = GET
                          /\ exists n, Cases.requested_count r = Some (JNum n)
                                       /\ 1 <= n <= 20) sent
      /\ (List.length sent <= fuel)%nat.
Proof.
  induction fuel as [|fuel IH]; intros rc cursor w; simpl;
    destruct (rc <? max_results);
    try (exists []; repeat split; [constructor|simpl; lia]).
  - destruct (_ <=? 0); exists []; repeat split; constructor.
  - destruct (Z.leb_spec (Z.min 20 (max_results - rc)) 0) as [Hle|Hpos];
      [exists []; repeat split; [constructor|simpl; lia]|].
    destruct (Twitter.batch net query (Z.min 20 (max_results - rc)) rc
                cursor w) as [r w1] eqn:E.
    apply twitter_batch_calls in E.
    destruct E as (request & E & Hget & Hcount).
    assert (Forall (fun r => req_method r = GET
                             /\ exists n,
                                  Cases.requested_count r = Some (JNum n)
                                  /\ 1 <= n <= 20) [request]) as Hone.
    { constructor; [|constructor]. split; [exact Hget|].
      eexists. split; [exact Hcount|lia]. }
    destruct r as [[rc' cursor']|e];
      [|exists [request]; simpl; rewrite E; repeat split;
        [exact Hone|lia]].
    destruct (negb (truthy cursor') || (max_results <=? rc'));
      [exists [request]; simpl; rewrite E; repeat split; [exact Hone|lia]|].
    destruct (IH rc' cursor' w1) as (sent & Es & Hs & Hl).
    exists (sent ++ [request])%list. rewrite Es, E. split; [|split].
    + rewrite <- app_assoc. reflexivity.
    + apply Forall_app. split; [exact Hs|exact Hone].
    + rewrite length_app. simpl. lia.
Qed.

(** X10.  When a search is answered with status 200 and a JSON object that has
    no [data], the Twitter generator ends there without raising: nothing
    is yielded from this response and no further request is sent. *)
Theorem twitter_search_all_ends_without_data
    (net : network) (query : string) (fuel : nat)
    (max_results results_count : Z) (cursor : json) (w : world)
    (resp : response) (body : list (string * json)) :
  answers net w resp ->
  status_code resp = 200 ->
  json_body resp = Ok (JDict body) ->
  lookup "data" body = None ->
  results_count < max_results ->
  exists w',
    Twitter.search_all_from net (S fuel) query max_results results_count
      cursor w = (Finished, w')
    /\ yielded w' = yielded w
    /\ List.length (calls w') = S (List.length (calls w)).
Proof.
  intros Hnet Hstatus Hbody Hdata Hlt. simpl.
  replace (results_count <? max_results) with true
    by (symmetry; apply Z.ltb_lt; lia).
  replace (Z.min 20 (max_results - results_count) <=? 0) with false
    by (symmetry; apply Z.leb_gt; lia).
  assert (Twitter.timeline_instructions (JDict body) = Ok (JList []))
    as Hnone.
  { unfold Twitter.timeline_instructions, get_or. rewrite Hdata.
    reflexivity. }
  assert (exists request,
            Twitter.search net query
              (Z.min 20 (max_results - results_count)) cursor w
            = (Ok (JDict body), World (request :: calls w) (yielded w)))
    as (request & Hsearch).
  { unfold Twitter.search. unfold_m. simpl. rewrite Hnet, Hstatus, Hbody.
    eexists. reflexivity. }
  unfold Twitter.batch, bind at 1. rewrite Hsearch.
  unfold bind at 1, lift. rewrite Hnone. simpl.
  eexists. repeat split.
Qed.

Lemma twitter_search_all_ends_without_data_witness :
  exists w',
    Twitter.search_all_from Cases.errors_only 1 "rocq" 50 0 JNull start
    = (Finished, w')
    /\ yielded w' = yielded start
    /\ List.length (calls w') = S (List.length (calls start)).
Proof.
  apply (twitter_search_all_ends_without_data Cases.errors_only "rocq" 0
           50 0 JNull start
           (Response 200 ""
              (Ok (JDict [("errors", JList [JDict [("code", JNum 88)]])])))
           [("errors", JList [JDict [("code", JNum 88)]])]).
  - intros r. reflexivity.
  - reflexivity.
  - reflexivity.
  - reflexivity.
  - lia.
Defined.

(** X11.  When the activation endpoint answers 200 with a JSON object that has
    no [guest_token], the bootstrap does not report a missing token: it
    raises the TypeError of the log line that slices the token. *)
Theorem twitter_bootstrap_without_token_raises_type_error
    (net : network) (w : world) (resp : response)
    (body : list (string * json)) :
  answers net w resp ->
  status_code resp = 200 ->
  json_body resp = Ok (JDict body) ->
  lookup "guest_token" body = None ->
  fails_at_call (Twitter.init net JNull) w
    (PyExc "TypeError" "'NoneType' object is not subscriptable").
Proof.
  intros Hnet Hstatus Hbody Htoken.
  unfold fails_at_call, Twitter.init, Twitter._obtain_guest_token.
  unfold_m. simpl. rewrite Hnet, Hstatus. simpl. rewrite Hbody. simpl.
  rewrite Htoken. simpl. auto.
Qed.

Lemma twitter_bootstrap_without_token_raises_type_error_witness :
  fails_at_call (Twitter.init Cases.errors_only JNull) start
    (PyExc "TypeError" "'NoneType' object is not subscriptable").
Proof.
  apply (twitter_bootstrap_without_token_raises_type_error
           Cases.errors_only start
           (Response 200 ""
              (Ok (JDict [("errors", JList [JDict [("code", JNum 88)]])])))
           [("errors", JList [JDict [("code", JNum 88)]])]).
  - intros r. reflexivity.
  - reflexivity.
  - reflexivity.
  - reflexivity.
Defined.

(** ** Edge cases of the normalizers *)

(** X15.  In a record of the Yelp initial state, [city] is the first
    neighborhood of the business; it is [None] when the business has no
    [neighborhoods], and the record is not built, with an IndexError,
    when the list is there and empty. *)
Theorem yelp_city_is_first_neighborhood
    (env : Yelp.environment) (business_data : list (string * json)) :
  dict_with "categories" is_dict_list (JDict business_data) = true ->
  (lookup "neighborhoods" business_data = Some (JList []) ->
   Yelp.initial_state_record env (JDict business_data)
   = Raise (PyExc "IndexError" "list index out of range"))
  /\ (lookup "neighborhoods" business_data = None ->
      exists record,
        Yelp.initial_state_record env (JDict business_data) = Ok record
        /\ at_path ["location"; "city"] record = Some JNull)
  /\ (forall first others,
        lookup "neighborhoods" business_data
        = Some (JList (first :: others)) ->
        exists record,
          Yelp.initial_state_record env (JDict business_data) = Ok record
          /\ at_path ["location"; "city"] record = Some first).
Proof.
  intros Hcat. unfold dict_with in Hcat. simpl in Hcat.
  assert (forall x, is_dict x = true ->
            exists y,
              (title <~ get x "title" ;;
               alias <~ get x "alias" ;;
               Ok (JDict [("title", title); ("alias", alias)]))%res = Ok y)
    as Hcategory.
  { intros x Hx. apply is_dict_inv in Hx as [d ->]. eexists. reflexivity. }
  split; [|split]; [intros Hn|intros Hn|intros first others Hn];
    unfold Yelp.initial_state_record; cbn [get get_or rbind];
    (destruct (lookup "categories" business_data) as [[| | | |l|]|];
     try discriminate Hcat; cbn [iter rbind rmap];
     [match goal with
      | |- context [rmap ?f l] =>
          destruct (rmap_total f is_dict l Hcategory Hcat) as [ys ->]
      end; cbn [rbind]|]);
    rewrite Hn; cbn [subscript0 rbind];
    try reflexivity; eexists; (split; [reflexivity|reflexivity]).
Qed.

Lemma yelp_city_is_first_neighborhood_witness :
  Yelp.initial_state_record (Scenario.yelp_env Scenario.unavailable)
    (JDict [("name", JStr "Cafe"); ("neighborhoods", JList [])])
  = Raise (PyExc "IndexError" "list index out of range").
Proof.
  apply (yelp_city_is_first_neighborhood
           (Scenario.yelp_env Scenario.unavailable)
           [("name", JStr "Cafe"); ("neighborhoods", JList [])]).
  - reflexivity.
  - reflexivity.
Defined.

(** X16.  Of the search results of the initial state, the results whose type is
    [business] become records, one each and in order; the others are
    dropped. *)
Theorem yelp_extract_keeps_businesses
    (env : Yelp.environment) (results records : list json) :
  Yelp.extract_businesses env results = Ok records ->
  rmap (fun result =>
          business_data <~ get_or result "business" (JDict []) ;;
          Yelp.initial_state_record env business_data)%res
       (filter Cases.is_business results) = Ok records
  /\ List.length records = List.length (filter Cases.is_business results).
Proof.
  assert (forall d,
            ne_str (match lookup "type" d with
                    | Some x => x
                    | None => JNull
                    end) "business"
            = negb (Cases.is_business (JDict d))) as Htype.
  { intros d. unfold Cases.is_business. simpl.
    destruct (lookup "type" d) as [[| | |s| |]|]; reflexivity. }
  revert records.
  induction results as [|result rest IH]; intros records.
  - simpl. intros H. inversion H. auto.
  - destruct result as [| | | | |d]; try discriminate.
    cbn [Yelp.extract_businesses get get_or rbind filter].
    rewrite Htype.
    destruct (Cases.is_business (JDict d)); cbn [negb].
    + cbn [rmap rbind get_or].
      destruct (Yelp.initial_state_record env _) as [record|e];
        cbn [rbind]; [|discriminate].
      destruct (Yelp.extract_businesses env rest) as [rs|e];
        cbn [rbind]; [|discriminate].
      intros H. inversion H. subst.
      destruct (IH rs eq_refl) as [Hr Hl]. rewrite Hr. cbn [rbind List.length].
      rewrite Hl. auto.
    + apply IH.
Qed.

Lemma yelp_extract_keeps_businesses_witness :
  List.length
    (match Yelp.extract_businesses (Scenario.yelp_env Scenario.unavailable)
             [JDict [("type", JStr "ad")]; Scenario.business 7] with
     | Ok records => records
     | Raise _ => []
     end) = 1%nat.
Proof.
  pose proof (yelp_extract_keeps_businesses
                (Scenario.yelp_env Scenario.unavailable)
                [JDict [("type", JStr "ad")]; Scenario.business 7]) as H.
  destruct (Yelp.extract_businesses (Scenario.yelp_env Scenario.unavailable)
              [JDict [("type", JStr "ad")]; Scenario.business 7])
    as [records|e] eqn:E.
  - destruct (H records eq_refl) as [_ Hl]. exact Hl.
  - discriminate E.
Defined.

(** X19.  When the city, the state and the country of a location are each
    missing, [None] or a str, [_format_location] returns a str that is not
    empty; it is "Remote" when none of the three is set; and when the
    city or the state is set, the result depends on these two only. *)
Theorem format_location_never_empty (location : list (string * json)) :
  Cases.str_or_none "city" location = true ->
  Cases.str_or_none "state" location = true ->
  Cases.str_or_none "country" location = true ->
  (exists s,
     Indeed._format_location (JDict location) = Ok (JStr s)
     /\ s <> ""
     /\ (Cases.truthy_field "city" location = false ->
         Cases.truthy_field "state" location = false ->
         Cases.truthy_field "country" location = false ->
         s = "Remote"))
  /\ (Cases.truthy_field "city" location
      || Cases.truthy_field "state" location = true ->
      forall other,
        lookup "city" other = lookup "city" location ->
        lookup "state" other = lookup "state" location ->
        Indeed._format_location (JDict other)
        = Indeed._format_location (JDict location)).
Proof.
  unfold Cases.str_or_none, Cases.truthy_field, Indeed._format_location.
  cbn [get get_or rbind lookup String.eqb Ascii.eqb Bool.eqb].
  intros Hcity Hstate Hcountry. split.
  - destruct (lookup "city" location) as [[| | |[|a city]| |]|];
      try discriminate Hcity;
      destruct (lookup "state" location) as [[| | |[|b state]| |]|];
      try discriminate Hstate;
      destruct (lookup "country" location) as [[| | |[|c country]| |]|];
      try discriminate Hcountry;
      cbn; eexists; (split; [reflexivity|]);
      (split; [discriminate|]); intros; try reflexivity; discriminate.
  - intros Hset other -> ->.
    destruct (lookup "city" location) as [city|];
      destruct (lookup "state" location) as [state|];
      cbn [truthy orb] in Hset |- *; try discriminate Hset;
      try rewrite Hset; rewrite ?orb_true_r;
      cbn [orb negb andb]; rewrite ?andb_false_r; try reflexivity.
Qed.

Lemma format_location_never_empty_witness :
  Indeed._format_location
    (JDict [("city", JStr "Austin"); ("country", JStr "FR")])
  = Indeed._format_location
      (JDict [("city", JStr "Austin"); ("country", JStr "US")]).
Proof.
  apply (format_location_never_empty
           [("city", JStr "Austin"); ("country", JStr "US")]).
  - reflexivity.
  - reflexivity.
  - reflexivity.
  - reflexivity.
  - reflexivity.
  - reflexivity.
Defined.

(** X20.  The record the Indeed generator builds from a GraphQL job: a job
    whose [company] is [null] raises AttributeError; a job without key,
    company, location and salary gives [None] for them, "Remote" for the
    location and a URL that ends in "None". *)
Theorem indeed_graphql_record_edges
    (env : Indeed.environment) (job job_data : list (string * json)) :
  lookup "job" job = Some (JDict job_data) ->
  (lookup "company" job_data = Some JNull ->
   Indeed.graphql_record env (JDict job)
   = Raise (PyExc "AttributeError"
              "'NoneType' object has no attribute 'get'"))
  /\ (lookup "key" job_data = None ->
      lookup "company" job_data = None ->
      lookup "location" job_data = None ->
      lookup "salarySnippet" job_data = None ->
      exists title job_types description date_posted,
        Indeed.graphql_record env (JDict job)
        = Ok (JDict [("id", JNull); ("title", title); ("company", JNull);
                     ("location", JStr "Remote"); ("salary", JNull);
                     ("job_types", job_types);
                     ("description", description);
                     ("url", JStr "https://www.indeed.com/viewjob?jk=None");
                     ("date_posted", date_posted)])).
Proof.
  intros Hjob. unfold Indeed.graphql_record.
  cbn [subscript rbind]. rewrite Hjob. cbn [get get_or rbind].
  split.
  - intros ->. reflexivity.
  - intros -> -> -> ->. cbn. repeat eexists.
Qed.

Lemma indeed_graphql_record_edges_witness :
  Indeed.graphql_record (Scenario.indeed_env Scenario.unavailable)
    (JDict [("job", JDict [("key", JStr "a1"); ("company", JNull)])])
  = Raise (PyExc "AttributeError" "'NoneType' object has no attribute 'get'").
Proof.
  apply (indeed_graphql_record_edges
           (Scenario.indeed_env Scenario.unavailable)
           [("job", JDict [("key", JStr "a1"); ("company", JNull)])]
           [("key", JStr "a1"); ("company", JNull)]).
  - reflexivity.
  - reflexivity.
Defined.

(** ** The commands of [main.py] *)

Section Commands.
Variable fs : Main.file_system.







(** X22.  The three commands build their client before the [try]: when the
    first request is answered with a status other than 200, the
    exception of the bootstrap leaves the command, whatever the
    arguments. *)
Theorem commands_do_not_catch_bootstrap_failure
    (fuel : nat) (a : Main.args) (resp : response) :
  status_code resp <> 200 ->
  (forall net,
     answers net start resp ->
     Main.twitter_search fs net fuel a
     = Main.Uncaught
         (Exception ("Failed to obtain guest token: "
                       ++ str_int (status_code resp) ++ " " ++ text resp)))
  /\ (forall env,
        answers (Indeed.env_net env) start resp ->
        Main.indeed_search fs env fuel a
        = Main.Uncaught
            (Exception ("Failed to initialize session: "
                          ++ str_int (status_code resp))))
  /\ (forall env,
        answers (Yelp.env_net env) start resp ->
        Main.yelp_search fs env fuel a
        = Main.Uncaught
            (Exception ("Failed to initialize session: "
                          ++ str_int (status_code resp)))).
Proof.
  intros Hstatus.
  assert (Hne : (status_code resp =? 200) = false)
    by (apply Z.eqb_neq; exact Hstatus).
  repeat split.
  - intros net Hnet.
    unfold Main.twitter_search, Twitter.init, Twitter._obtain_guest_token.
    unfold_m. cbn [truthy]. rewrite (Hnet _). rewrite Hne. reflexivity.
  - intros env Hnet.
    unfold Main.indeed_search, Indeed._initialize_session.
    unfold_m. rewrite (Hnet _). rewrite Hne. reflexivity.
  - intros env Hnet.
    unfold Main.yelp_search, Yelp._initialize_session.
    unfold_m. rewrite (Hnet _). rewrite Hne. reflexivity.
Qed.

End Commands.


Lemma commands_do_not_catch_bootstrap_failure_witness :
  Main.twitter_search Cases.plain_files Scenario.unavailable 5
    Cases.up_to_three
  = Main.Uncaught
      (Exception "Failed to obtain guest token: 500 Internal Server Error").
Proof.
  destruct (commands_do_not_catch_bootstrap_failure Cases.plain_files 5
              Cases.up_to_three
              (Response 500 "Internal Server Error"
                 (Raise (PyExc "JSONDecodeError" "Expecting value"))))
    as [Htwitter _].
  - simpl. discriminate.
  - apply (Htwitter Scenario.unavailable). intros r. reflexivity.
Defined.
